(** * linak-desk-control: status report decoder and motion controller

    A shallow embedding of [linak-desk-control.py].  Python values are
    represented as follows:

    - [int] is [Z]; a [bytes]/[bytearray] is a [list byte]; a [str] is a
      [list ascii] (so that slices are [firstn]/[skipn]);
    - a raised exception is the [Raise] outcome of the [res] monad;
    - the USB control transfer is the only effect of the controller.  A run
      of the controller is driven by a [Transport]: the outcome of the n-th
      control transfer performed by the process.  Controller methods thread
      the number of transfers performed so far;
    - [time.sleep] and the logger have no effect on any value computed and
      are left out. *)

From Stdlib Require Import Ascii String.
From Stdlib Require Import ZArith List Lia Bool.
From Stdlib.Strings Require Import Byte.
From Stdlib Require Import PrimFloat Uint63.
Import ListNotations.
Open Scope Z_scope.

Set Implicit Arguments.

(** ** Python values *)

Definition pystr := list ascii.
Definition bytes := list byte.

Definition str (s : string) : pystr := list_ascii_of_string s.

Definition byte_val (b : byte) : Z := Z.of_N (Byte.to_N b).

(** Exceptions the program can raise.  [Exception msg] is the program's own
    [raise Exception(msg)]; the others are raised by the builtins. *)
Inductive PyExc : Type :=
| Exception (msg : string)
| ValueError
| IndexError
| AttributeError
| TypeError
| USBError.

Inductive res (A : Type) : Type :=
| Ok (a : A)
| Raise (e : PyExc).
Arguments Raise {A} e.

Definition bind {A B} (c : res A) (k : A -> res B) : res B :=
  match c with
  | Ok a => k a
  | Raise e => Raise e
  end.

Declare Scope res_scope.
Delimit Scope res_scope with res.
Notation "x <- c ;; k" := (bind c (fun x => k))
  (at level 61, c at next level, right associativity) : res_scope.
Open Scope res_scope.

(** [xs[i]] for a non-negative index. *)
Definition getitem {A} (xs : list A) (i : nat) : res A :=
  match nth_error xs i with
  | Some x => Ok x
  | None => Raise IndexError
  end.

(** [buf[i]] on a bytes object yields an int. *)
Definition getbyte (buf : bytes) (i : nat) : res Z :=
  b <- getitem buf i ;; Ok (byte_val b).

Fixpoint update {A} (xs : list A) (i : nat) (v : A) : option (list A) :=
  match xs, i with
  | [], _ => None
  | _ :: t, O => Some (v :: t)
  | x :: t, S j => option_map (cons x) (update t j v)
  end.

(** [buf[i] = v] on a bytearray: [v] must be in [range(256)], [i] in range. *)
Definition setitem (buf : bytes) (i : nat) (v : Z) : res bytes :=
  if (v <? 0) || (255 <? v) then Raise ValueError
  else match Byte.of_N (Z.to_N v) with
       | None => Raise ValueError
       | Some b => match update buf i b with
                   | Some buf' => Ok buf'
                   | None => Raise IndexError
                   end
       end.

(** Slices with non-negative bounds: [s[a:b]], [s[a:]], [s[:b]]. *)
Definition slice {A} (a b : nat) (s : list A) : list A := firstn (b - a) (skipn a s).
Definition slice_from {A} (a : nat) (s : list A) : list A := skipn a s.
Definition slice_to {A} (b : nat) (s : list A) : list A := firstn b s.

(** [range(a, b)] and [enumerate(xs)]. *)
Definition range (a b : nat) : list nat := seq a (b - a).
Definition enumerate {A} (xs : list A) : list (nat * A) := combine (seq 0 (length xs)) xs.

(** A [for] loop whose body updates the loop state or raises. *)
Fixpoint for_each {A S} (xs : list A) (body : A -> S -> res S) (s : S) : res S :=
  match xs with
  | [] => Ok s
  | x :: t => s' <- body x s ;; for_each t body s'
  end.

(** A [for] loop whose body may [return] from the enclosing function:
    [Some r] returns [r] at once, [None] goes on to the next element. *)
Fixpoint for_return {A R} (xs : list A) (body : A -> res (option R)) : res (option R) :=
  match xs with
  | [] => Ok None
  | x :: t =>
      r <- body x ;;
      match r with
      | Some v => Ok (Some v)
      | None => for_return t body
      end
  end.

(** *** Hexadecimal and binary text *)

Definition hexdigit (d : Z) : ascii := nth (Z.to_nat d) (str "0123456789abcdef") "0"%char.

(** [bytes.hex()]: two lower-case digits per byte. *)
Definition hex_byte (b : byte) : pystr :=
  [hexdigit (byte_val b / 16); hexdigit (byte_val b mod 16)].
Definition hex (buf : bytes) : pystr := flat_map hex_byte buf.

Definition hexval (c : ascii) : option Z :=
  let n := Z.of_N (N_of_ascii c) in
  if (48 <=? n) && (n <=? 57) then Some (n - 48)
  else if (97 <=? n) && (n <=? 102) then Some (n - 87)
  else if (65 <=? n) && (n <=? 70) then Some (n - 55)
  else None.

Fixpoint int16_digits (acc : Z) (s : pystr) : res Z :=
  match s with
  | [] => Ok acc
  | c :: t => match hexval c with
              | Some d => int16_digits (16 * acc + d) t
              | None => Raise ValueError
              end
  end.

Definition is_sign (c : ascii) : bool := Ascii.eqb c "-" || Ascii.eqb c "+".

(** [int(s, 16)] for text made of an optional sign and hexadecimal digits,
    which is all the program ever passes: slices of [bytes.hex()] and of a
    ['{:04x}'] rendering.  The empty string and a bare sign are rejected with
    [ValueError], like any text with another character ([int] would accept
    blanks, underscores and a [0x] prefix, none of which can occur here). *)
Definition int16 (s : pystr) : res Z :=
  match s with
  | [] => Raise ValueError
  | c :: t =>
      if is_sign c then
        match t with
        | [] => Raise ValueError
        | _ => v <- int16_digits 0 t ;; Ok (if Ascii.eqb c "-" then - v else v)
        end
      else int16_digits 0 s
  end.

Fixpoint bin_digits (p : positive) : pystr :=
  match p with
  | xH => ["1"%char]
  | xO q => bin_digits q ++ ["0"%char]
  | xI q => bin_digits q ++ ["1"%char]
  end.

(** [bin(n)] *)
Definition bin (n : Z) : pystr :=
  match n with
  | Z0 => str "0b0"
  | Zpos p => str "0b" ++ bin_digits p
  | Zneg p => str "-0b" ++ bin_digits p
  end.

(** [s.lstrip(chars)] *)
Fixpoint lstrip (chars s : pystr) : pystr :=
  match s with
  | [] => []
  | c :: t => if existsb (Ascii.eqb c) chars then lstrip chars t else s
  end.

(** ['{:0>8s}'.format(s)] is [rjust "0" 8 s]. *)
Definition rjust (fill : ascii) (width : nat) (s : pystr) : pystr :=
  repeat fill (width - length s) ++ s.

(** [s.zfill(width)]: the zeros go after a leading sign. *)
Definition zfill (width : nat) (s : pystr) : pystr :=
  match s with
  | c :: t => if is_sign c then c :: repeat "0"%char (width - length s) ++ t
              else repeat "0"%char (width - length s) ++ s
  | [] => repeat "0"%char width
  end.

Fixpoint hex_digits (fuel : nat) (n : Z) : pystr :=
  match fuel with
  | O => []
  | S fuel' => if n <? 16 then [hexdigit n]
               else hex_digits fuel' (n / 16) ++ [hexdigit (n mod 16)]
  end.

(** ['{:04x}'.format(n)]: lower-case hexadecimal of [|n|], zero-padded to
    four characters, sign included and first. *)
Definition format_04x (n : Z) : pystr :=
  let digits := hex_digits (S (Z.to_nat (Z.log2 (Z.abs n)))) (Z.abs n) in
  zfill 4 (if n <? 0 then "-"%char :: digits else digits).

(** [x / 98.0] for an int [x]: the int is converted to a double (exactly,
    below 2^53) and divided in binary64. *)
Definition float_of_int (z : Z) : float :=
  if z <? 0 then PrimFloat.opp (PrimFloat.of_uint63 (Uint63.of_Z (- z)))
  else PrimFloat.of_uint63 (Uint63.of_Z z).

(** ** Module constants *)

Definition REQ_INIT : Z := 0x0303.
Definition REQ_GET_STATUS : Z := 0x0304.
Definition REQ_MOVE : Z := 0x0305.
Definition TYPE_SET_CI : Z := 0x21.
Definition TYPE_GET_CI : Z := 0xA1.
Definition HID_REPORT_GET : Z := 0x01.
Definition HID_REPORT_SET : Z := 0x09.
Definition CMD_STATUS_REPORT : Z := 4.
Definition LEN_STATUS_REPORT : Z := 64.
Definition NRB_STATUS_REPORT : Z := 56.
Definition CMD_CONTROL_CBC : Z := 5.
Definition LINAK_TIMEOUT : Z := 1000.
Definition CMD_MODE_OF_OPERATION : Z := 3.
Definition DEF_MODE_OF_OPERATION : Z := 4.
Definition HEIGHT_MOVE_DOWNWARDS : Z := 32767.
Definition HEIGHT_MOVE_UPWARDS : Z := 32768.
Definition HEIGHT_MOVE_END : Z := 32769.

(** ** The logger *)

Module Logger.

(** The levels of the [logging] module. *)
Definition CRITICAL : Z := 50.
Definition ERROR : Z := 40.
Definition WARNING : Z := 30.
Definition INFO : Z := 20.
Definition DEBUG : Z := 10.

(** A dict with integer keys, as the association list of its items. *)
Fixpoint dict_lookup {V} (d : list (Z * V)) (k : Z) : option V :=
  match d with
  | [] => None
  | (k', v) :: rest => if k' =? k then Some v else dict_lookup rest k
  end.

(** [d.get(k, default)] *)
Definition dict_get {V} (d : list (Z * V)) (k : Z) (default : V) : V :=
  match dict_lookup d k with
  | Some v => v
  | None => default
  end.

(** The level [set_verbose] hands to [setLevel]; [None] stands for the
    [KeyError] of [ver_map[4]]. *)
Definition set_verbose (verbose_level : Z) : option Z :=
  let ver_map := [(0, CRITICAL); (1, ERROR); (2, WARNING); (3, INFO); (4, DEBUG)] in
  match dict_lookup ver_map 4 with
  | None => None
  | Some default => Some (dict_get ver_map verbose_level default)
  end.

(** [Logger.isEnabledFor]: a record is emitted when its level is at least
    the level of the logger. *)
Definition isEnabledFor (logger_level record_level : Z) : bool :=
  logger_level <=? record_level.

End Logger.

(** ** The report decoder

    Each class keeps its class-level attribute values in [cls]: this is the
    instance [cls()] returns, before [from_buf] assigns anything.  Attributes
    whose class-level value is [None] are options. *)

Module Status.

Record t : Type := mk {
  positionLost : bool;
  antiColision : bool;
  overloadDown : bool;
  overloadUp : bool;
  unknown : Z
}.

Definition cls : t := mk true true true true 4.

(** The attribute names listed in [attr]. *)
Inductive name : Type := PositionLost | AntiColision | OverloadDown | OverloadUp.

Definition setattr (self : t) (a : name) (v : bool) : t :=
  match a with
  | PositionLost => mk v (antiColision self) (overloadDown self) (overloadUp self) (unknown self)
  | AntiColision => mk (positionLost self) v (overloadDown self) (overloadUp self) (unknown self)
  | OverloadDown => mk (positionLost self) (antiColision self) v (overloadUp self) (unknown self)
  | OverloadUp => mk (positionLost self) (antiColision self) (overloadDown self) v (unknown self)
  end.

Definition set_unknown (self : t) (v : Z) : t :=
  mk (positionLost self) (antiColision self) (overloadDown self) (overloadUp self) v.

Definition from_buf (buf : pystr) : res t :=
  let self := cls in
  let attr := [PositionLost; AntiColision; OverloadDown; OverloadUp] in
  n <- int16 buf ;;
  let bitlist := rjust "0" 8 (lstrip (str "0b") (bin n)) in
  self <- for_each (enumerate attr)
            (fun '(index, attr_name) self =>
               c <- getitem bitlist index ;;
               Ok (setattr self attr_name (Ascii.eqb c "1")))
            self ;;
  u <- int16 (slice_from 1 buf) ;;
  Ok (set_unknown self u).

End Status.

Module StatusPositionSpeed.

Record t : Type := mk {
  pos : option Z;
  status : option Status.t;
  speed : Z
}.

Definition cls : t := mk None None 0.

Definition set_pos (self : t) (v : Z) : t := mk (Some v) (status self) (speed self).
Definition set_status (self : t) (v : Status.t) : t := mk (pos self) (Some v) (speed self).
Definition set_speed (self : t) (v : Z) : t := mk (pos self) (status self) v.

Definition from_buf (buf : pystr) : res t :=
  let self := cls in
  p <- int16 (slice 2 4 buf ++ slice_to 2 buf) ;;
  let self := set_pos self p in
  st <- Status.from_buf (slice 4 6 buf) ;;
  let self := set_status self st in
  sp <- int16 (slice 6 8 buf) ;;
  let self := set_speed self sp in
  Ok self.

End StatusPositionSpeed.

Module ValidFlags.

Record t : Type := mk {
  ID00_Ref1_pos_stat_speed : bool;
  ID01_Ref2_pos_stat_speed : bool;
  ID02_Ref3_pos_stat_speed : bool;
  ID03_Ref4_pos_stat_speed : bool;
  ID10_Ref1_controlInput : bool;
  ID11_Ref2_controlInput : bool;
  ID12_Ref3_controlInput : bool;
  ID13_Ref4_controlInput : bool;
  ID04_Ref5_pos_stat_speed : bool;
  ID28_Diagnostic : bool;
  ID05_Ref6_pos_stat_speed : bool;
  ID37_Handset1command : bool;
  ID38_Handset2command : bool;
  ID06_Ref7_pos_stat_speed : bool;
  ID07_Ref8_pos_stat_speed : bool;
  unknown : bool
}.

Definition cls : t :=
  mk true true true true true true true true true true true true true true true true.

(** The attribute names listed in [attr]. *)
Inductive name : Type :=
| N_ID00_Ref1_pos_stat_speed
| N_ID01_Ref2_pos_stat_speed
| N_ID02_Ref3_pos_stat_speed
| N_ID03_Ref4_pos_stat_speed
| N_ID10_Ref1_controlInput
| N_ID11_Ref2_controlInput
| N_ID12_Ref3_controlInput
| N_ID13_Ref4_controlInput
| N_ID04_Ref5_pos_stat_speed
| N_ID28_Diagnostic
| N_ID05_Ref6_pos_stat_speed
| N_ID37_Handset1command
| N_ID38_Handset2command
| N_ID06_Ref7_pos_stat_speed
| N_ID07_Ref8_pos_stat_speed
| N_unknown.

Definition setattr (self : t) (a : name) (v : bool) : t :=
  match a with
  | N_ID00_Ref1_pos_stat_speed =>
      mk v (ID01_Ref2_pos_stat_speed self) (ID02_Ref3_pos_stat_speed self) (ID03_Ref4_pos_stat_speed self) (ID10_Ref1_controlInput self) (ID11_Ref2_controlInput self) (ID12_Ref3_controlInput self) (ID13_Ref4_controlInput self) (ID04_Ref5_pos_stat_speed self) (ID28_Diagnostic self) (ID05_Ref6_pos_stat_speed self) (ID37_Handset1command self) (ID38_Handset2command self) (ID06_Ref7_pos_stat_speed self) (ID07_Ref8_pos_stat_speed self) (unknown self)
  | N_ID01_Ref2_pos_stat_speed =>
      mk (ID00_Ref1_pos_stat_speed self) v (ID02_Ref3_pos_stat_speed self) (ID03_Ref4_pos_stat_speed self) (ID10_Ref1_controlInput self) (ID11_Ref2_controlInput self) (ID12_Ref3_controlInput self) (ID13_Ref4_controlInput self) (ID04_Ref5_pos_stat_speed self) (ID28_Diagnostic self) (ID05_Ref6_pos_stat_speed self) (ID37_Handset1command self) (ID38_Handset2command self) (ID06_Ref7_pos_stat_speed self) (ID07_Ref8_pos_stat_speed self) (unknown self)
  | N_ID02_Ref3_pos_stat_speed =>
      mk (ID00_Ref1_pos_stat_speed self) (ID01_Ref2_pos_stat_speed self) v (ID03_Ref4_pos_stat_speed self) (ID10_Ref1_controlInput self) (ID11_Ref2_controlInput self) (ID12_Ref3_controlInput self) (ID13_Ref4_controlInput self) (ID04_Ref5_pos_stat_speed self) (ID28_Diagnostic self) (ID05_Ref6_pos_stat_speed self) (ID37_Handset1command self) (ID38_Handset2command self) (ID06_Ref7_pos_stat_speed self) (ID07_Ref8_pos_stat_speed self) (unknown self)
  | N_ID03_Ref4_pos_stat_speed =>
      mk (ID00_Ref1_pos_stat_speed self) (ID01_Ref2_pos_stat_speed self) (ID02_Ref3_pos_stat_speed self) v (ID10_Ref1_controlInput self) (ID11_Ref2_controlInput self) (ID12_Ref3_controlInput self) (ID13_Ref4_controlInput self) (ID04_Ref5_pos_stat_speed self) (ID28_Diagnostic self) (ID05_Ref6_pos_stat_speed self) (ID37_Handset1command self) (ID38_Handset2command self) (ID06_Ref7_pos_stat_speed self) (ID07_Ref8_pos_stat_speed self) (unknown self)
  | N_ID10_Ref1_controlInput =>
      mk (ID00_Ref1_pos_stat_speed self) (ID01_Ref2_pos_stat_speed self) (ID02_Ref3_pos_stat_speed self) (ID03_Ref4_pos_stat_speed self) v (ID11_Ref2_controlInput self) (ID12_Ref3_controlInput self) (ID13_Ref4_controlInput self) (ID04_Ref5_pos_stat_speed self) (ID28_Diagnostic self) (ID05_Ref6_pos_stat_speed self) (ID37_Handset1command self) (ID38_Handset2command self) (ID06_Ref7_pos_stat_speed self) (ID07_Ref8_pos_stat_speed self) (unknown self)
  | N_ID11_Ref2_controlInput =>
      mk (ID00_Ref1_pos_stat_speed self) (ID01_Ref2_pos_stat_speed self) (ID02_Ref3_pos_stat_speed self) (ID03_Ref4_pos_stat_speed self) (ID10_Ref1_controlInput self) v (ID12_Ref3_controlInput self) (ID13_Ref4_controlInput self) (ID04_Ref5_pos_stat_speed self) (ID28_Diagnostic self) (ID05_Ref6_pos_stat_speed self) (ID37_Handset1command self) (ID38_Handset2command self) (ID06_Ref7_pos_stat_speed self) (ID07_Ref8_pos_stat_speed self) (unknown self)
  | N_ID12_Ref3_controlInput =>
      mk (ID00_Ref1_pos_stat_speed self) (ID01_Ref2_pos_stat_speed self) (ID02_Ref3_pos_stat_speed self) (ID03_Ref4_pos_stat_speed self) (ID10_Ref1_controlInput self) (ID11_Ref2_controlInput self) v (ID13_Ref4_controlInput self) (ID04_Ref5_pos_stat_speed self) (ID28_Diagnostic self) (ID05_Ref6_pos_stat_speed self) (ID37_Handset1command self) (ID38_Handset2command self) (ID06_Ref7_pos_stat_speed self) (ID07_Ref8_pos_stat_speed self) (unknown self)
  | N_ID13_Ref4_controlInput =>
      mk (ID00_Ref1_pos_stat_speed self) (ID01_Ref2_pos_stat_speed self) (ID02_Ref3_pos_stat_speed self) (ID03_Ref4_pos_stat_speed self) (ID10_Ref1_controlInput self) (ID11_Ref2_controlInput self) (ID12_Ref3_controlInput self) v (ID04_Ref5_pos_stat_speed self) (ID28_Diagnostic self) (ID05_Ref6_pos_stat_speed self) (ID37_Handset1command self) (ID38_Handset2command self) (ID06_Ref7_pos_stat_speed self) (ID07_Ref8_pos_stat_speed self) (unknown self)
  | N_ID04_Ref5_pos_stat_speed =>
      mk (ID00_Ref1_pos_stat_speed self) (ID01_Ref2_pos_stat_speed self) (ID02_Ref3_pos_stat_speed self) (ID03_Ref4_pos_stat_speed self) (ID10_Ref1_controlInput self) (ID11_Ref2_controlInput self) (ID12_Ref3_controlInput self) (ID13_Ref4_controlInput self) v (ID28_Diagnostic self) (ID05_Ref6_pos_stat_speed self) (ID37_Handset1command self) (ID38_Handset2command self) (ID06_Ref7_pos_stat_speed self) (ID07_Ref8_pos_stat_speed self) (unknown self)
  | N_ID28_Diagnostic =>
      mk (ID00_Ref1_pos_stat_speed self) (ID01_Ref2_pos_stat_speed self) (ID02_Ref3_pos_stat_speed self) (ID03_Ref4_pos_stat_speed self) (ID10_Ref1_controlInput self) (ID11_Ref2_controlInput self) (ID12_Ref3_controlInput self) (ID13_Ref4_controlInput self) (ID04_Ref5_pos_stat_speed self) v (ID05_Ref6_pos_stat_speed self) (ID37_Handset1command self) (ID38_Handset2command self) (ID06_Ref7_pos_stat_speed self) (ID07_Ref8_pos_stat_speed self) (unknown self)
  | N_ID05_Ref6_pos_stat_speed =>
      mk (ID00_Ref1_pos_stat_speed self) (ID01_Ref2_pos_stat_speed self) (ID02_Ref3_pos_stat_speed self) (ID03_Ref4_pos_stat_speed self) (ID10_Ref1_controlInput self) (ID11_Ref2_controlInput self) (ID12_Ref3_controlInput self) (ID13_Ref4_controlInput self) (ID04_Ref5_pos_stat_speed self) (ID28_Diagnostic self) v (ID37_Handset1command self) (ID38_Handset2command self) (ID06_Ref7_pos_stat_speed self) (ID07_Ref8_pos_stat_speed self) (unknown self)
  | N_ID37_Handset1command =>
      mk (ID00_Ref1_pos_stat_speed self) (ID01_Ref2_pos_stat_speed self) (ID02_Ref3_pos_stat_speed self) (ID03_Ref4_pos_stat_speed self) (ID10_Ref1_controlInput self) (ID11_Ref2_controlInput self) (ID12_Ref3_controlInput self) (ID13_Ref4_controlInput self) (ID04_Ref5_pos_stat_speed self) (ID28_Diagnostic self) (ID05_Ref6_pos_stat_speed self) v (ID38_Handset2command self) (ID06_Ref7_pos_stat_speed self) (ID07_Ref8_pos_stat_speed self) (unknown self)
  | N_ID38_Handset2command =>
      mk (ID00_Ref1_pos_stat_speed self) (ID01_Ref2_pos_stat_speed self) (ID02_Ref3_pos_stat_speed self) (ID03_Ref4_pos_stat_speed self) (ID10_Ref1_controlInput self) (ID11_Ref2_controlInput self) (ID12_Ref3_controlInput self) (ID13_Ref4_controlInput self) (ID04_Ref5_pos_stat_speed self) (ID28_Diagnostic self) (ID05_Ref6_pos_stat_speed self) (ID37_Handset1command self) v (ID06_Ref7_pos_stat_speed self) (ID07_Ref8_pos_stat_speed self) (unknown self)
  | N_ID06_Ref7_pos_stat_speed =>
      mk (ID00_Ref1_pos_stat_speed self) (ID01_Ref2_pos_stat_speed self) (ID02_Ref3_pos_stat_speed self) (ID03_Ref4_pos_stat_speed self) (ID10_Ref1_controlInput self) (ID11_Ref2_controlInput self) (ID12_Ref3_controlInput self) (ID13_Ref4_controlInput self) (ID04_Ref5_pos_stat_speed self) (ID28_Diagnostic self) (ID05_Ref6_pos_stat_speed self) (ID37_Handset1command self) (ID38_Handset2command self) v (ID07_Ref8_pos_stat_speed self) (unknown self)
  | N_ID07_Ref8_pos_stat_speed =>
      mk (ID00_Ref1_pos_stat_speed self) (ID01_Ref2_pos_stat_speed self) (ID02_Ref3_pos_stat_speed self) (ID03_Ref4_pos_stat_speed self) (ID10_Ref1_controlInput self) (ID11_Ref2_controlInput self) (ID12_Ref3_controlInput self) (ID13_Ref4_controlInput self) (ID04_Ref5_pos_stat_speed self) (ID28_Diagnostic self) (ID05_Ref6_pos_stat_speed self) (ID37_Handset1command self) (ID38_Handset2command self) (ID06_Ref7_pos_stat_speed self) v (unknown self)
  | N_unknown =>
      mk (ID00_Ref1_pos_stat_speed self) (ID01_Ref2_pos_stat_speed self) (ID02_Ref3_pos_stat_speed self) (ID03_Ref4_pos_stat_speed self) (ID10_Ref1_controlInput self) (ID11_Ref2_controlInput self) (ID12_Ref3_controlInput self) (ID13_Ref4_controlInput self) (ID04_Ref5_pos_stat_speed self) (ID28_Diagnostic self) (ID05_Ref6_pos_stat_speed self) (ID37_Handset1command self) (ID38_Handset2command self) (ID06_Ref7_pos_stat_speed self) (ID07_Ref8_pos_stat_speed self) v
  end.

Definition attr : list name :=
  [N_ID00_Ref1_pos_stat_speed;
   N_ID01_Ref2_pos_stat_speed;
   N_ID02_Ref3_pos_stat_speed;
   N_ID03_Ref4_pos_stat_speed;
   N_ID10_Ref1_controlInput;
   N_ID11_Ref2_controlInput;
   N_ID12_Ref3_controlInput;
   N_ID13_Ref4_controlInput;
   N_ID04_Ref5_pos_stat_speed;
   N_ID28_Diagnostic;
   N_ID05_Ref6_pos_stat_speed;
   N_ID37_Handset1command;
   N_ID38_Handset2command;
   N_ID06_Ref7_pos_stat_speed;
   N_ID07_Ref8_pos_stat_speed;
   N_unknown].

Definition from_buf (buf : pystr) : res t :=
  let self := cls in
  n <- int16 buf ;;
  for_each (enumerate (zfill 16 (slice_from 2 (bin n))))
    (fun '(idx, bit) self =>
       a <- getitem attr idx ;;
       Ok (setattr self a (Ascii.eqb bit "1")))
    self.

End ValidFlags.

Module StatusReport.

Record t : Type := mk {
  featureRaportID : Z;
  numberOfBytes : Z;
  validFlag : option ValidFlags.t;
  ref1 : option StatusPositionSpeed.t;
  ref2 : option StatusPositionSpeed.t;
  ref3 : option StatusPositionSpeed.t;
  ref4 : option StatusPositionSpeed.t;
  ref1cnt : Z;
  ref2cnt : Z;
  ref3cnt : Z;
  ref4cnt : Z;
  ref5 : option StatusPositionSpeed.t;
  diagnostic : option pystr;
  undefined1 : option pystr;
  handset1 : Z;
  handset2 : Z;
  ref6 : option StatusPositionSpeed.t;
  ref7 : option StatusPositionSpeed.t;
  ref8 : option StatusPositionSpeed.t;
  undefined2 : option pystr
}.

Definition cls : t :=
  mk 0 0 None None None None None 0 0 0 0 None None None 0 0 None None None None.

Definition set_featureRaportID (self : t) (v : Z) : t :=
  mk v (numberOfBytes self) (validFlag self) (ref1 self) (ref2 self) (ref3 self) (ref4 self) (ref1cnt self) (ref2cnt self) (ref3cnt self) (ref4cnt self) (ref5 self) (diagnostic self) (undefined1 self) (handset1 self) (handset2 self) (ref6 self) (ref7 self) (ref8 self) (undefined2 self).
Definition set_numberOfBytes (self : t) (v : Z) : t :=
  mk (featureRaportID self) v (validFlag self) (ref1 self) (ref2 self) (ref3 self) (ref4 self) (ref1cnt self) (ref2cnt self) (ref3cnt self) (ref4cnt self) (ref5 self) (diagnostic self) (undefined1 self) (handset1 self) (handset2 self) (ref6 self) (ref7 self) (ref8 self) (undefined2 self).
Definition set_validFlag (self : t) (v : ValidFlags.t) : t :=
  mk (featureRaportID self) (numberOfBytes self) (Some v) (ref1 self) (ref2 self) (ref3 self) (ref4 self) (ref1cnt self) (ref2cnt self) (ref3cnt self) (ref4cnt self) (ref5 self) (diagnostic self) (undefined1 self) (handset1 self) (handset2 self) (ref6 self) (ref7 self) (ref8 self) (undefined2 self).
Definition set_ref1 (self : t) (v : StatusPositionSpeed.t) : t :=
  mk (featureRaportID self) (numberOfBytes self) (validFlag self) (Some v) (ref2 self) (ref3 self) (ref4 self) (ref1cnt self) (ref2cnt self) (ref3cnt self) (ref4cnt self) (ref5 self) (diagnostic self) (undefined1 self) (handset1 self) (handset2 self) (ref6 self) (ref7 self) (ref8 self) (undefined2 self).
Definition set_ref2 (self : t) (v : StatusPositionSpeed.t) : t :=
  mk (featureRaportID self) (numberOfBytes self) (validFlag self) (ref1 self) (Some v) (ref3 self) (ref4 self) (ref1cnt self) (ref2cnt self) (ref3cnt self) (ref4cnt self) (ref5 self) (diagnostic self) (undefined1 self) (handset1 self) (handset2 self) (ref6 self) (ref7 self) (ref8 self) (undefined2 self).
Definition set_ref3 (self : t) (v : StatusPositionSpeed.t) : t :=
  mk (featureRaportID self) (numberOfBytes self) (validFlag self) (ref1 self) (ref2 self) (Some v) (ref4 self) (ref1cnt self) (ref2cnt self) (ref3cnt self) (ref4cnt self) (ref5 self) (diagnostic self) (undefined1 self) (handset1 self) (handset2 self) (ref6 self) (ref7 self) (ref8 self) (undefined2 self).
Definition set_ref4 (self : t) (v : StatusPositionSpeed.t) : t :=
  mk (featureRaportID self) (numberOfBytes self) (validFlag self) (ref1 self) (ref2 self) (ref3 self) (Some v) (ref1cnt self) (ref2cnt self) (ref3cnt self) (ref4cnt self) (ref5 self) (diagnostic self) (undefined1 self) (handset1 self) (handset2 self) (ref6 self) (ref7 self) (ref8 self) (undefined2 self).
Definition set_ref1cnt (self : t) (v : Z) : t :=
  mk (featureRaportID self) (numberOfBytes self) (validFlag self) (ref1 self) (ref2 self) (ref3 self) (ref4 self) v (ref2cnt self) (ref3cnt self) (ref4cnt self) (ref5 self) (diagnostic self) (undefined1 self) (handset1 self) (handset2 self) (ref6 self) (ref7 self) (ref8 self) (undefined2 self).
Definition set_ref2cnt (self : t) (v : Z) : t :=
  mk (featureRaportID self) (numberOfBytes self) (validFlag self) (ref1 self) (ref2 self) (ref3 self) (ref4 self) (ref1cnt self) v (ref3cnt self) (ref4cnt self) (ref5 self) (diagnostic self) (undefined1 self) (handset1 self) (handset2 self) (ref6 self) (ref7 self) (ref8 self) (undefined2 self).
Definition set_ref3cnt (self : t) (v : Z) : t :=
  mk (featureRaportID self) (numberOfBytes self) (validFlag self) (ref1 self) (ref2 self) (ref3 self) (ref4 self) (ref1cnt self) (ref2cnt self) v (ref4cnt self) (ref5 self) (diagnostic self) (undefined1 self) (handset1 self) (handset2 self) (ref6 self) (ref7 self) (ref8 self) (undefined2 self).
Definition set_ref4cnt (self : t) (v : Z) : t :=
  mk (featureRaportID self) (numberOfBytes self) (validFlag self) (ref1 self) (ref2 self) (ref3 self) (ref4 self) (ref1cnt self) (ref2cnt self) (ref3cnt self) v (ref5 self) (diagnostic self) (undefined1 self) (handset1 self) (handset2 self) (ref6 self) (ref7 self) (ref8 self) (undefined2 self).
Definition set_ref5 (self : t) (v : StatusPositionSpeed.t) : t :=
  mk (featureRaportID self) (numberOfBytes self) (validFlag self) (ref1 self) (ref2 self) (ref3 self) (ref4 self) (ref1cnt self) (ref2cnt self) (ref3cnt self) (ref4cnt self) (Some v) (diagnostic self) (undefined1 self) (handset1 self) (handset2 self) (ref6 self) (ref7 self) (ref8 self) (undefined2 self).
Definition set_diagnostic (self : t) (v : pystr) : t :=
  mk (featureRaportID self) (numberOfBytes self) (validFlag self) (ref1 self) (ref2 self) (ref3 self) (ref4 self) (ref1cnt self) (ref2cnt self) (ref3cnt self) (ref4cnt self) (ref5 self) (Some v) (undefined1 self) (handset1 self) (handset2 self) (ref6 self) (ref7 self) (ref8 self) (undefined2 self).
Definition set_undefined1 (self : t) (v : pystr) : t :=
  mk (featureRaportID self) (numberOfBytes self) (validFlag self) (ref1 self) (ref2 self) (ref3 self) (ref4 self) (ref1cnt self) (ref2cnt self) (ref3cnt self) (ref4cnt self) (ref5 self) (diagnostic self) (Some v) (handset1 self) (handset2 self) (ref6 self) (ref7 self) (ref8 self) (undefined2 self).
Definition set_handset1 (self : t) (v : Z) : t :=
  mk (featureRaportID self) (numberOfBytes self) (validFlag self) (ref1 self) (ref2 self) (ref3 self) (ref4 self) (ref1cnt self) (ref2cnt self) (ref3cnt self) (ref4cnt self) (ref5 self) (diagnostic self) (undefined1 self) v (handset2 self) (ref6 self) (ref7 self) (ref8 self) (undefined2 self).
Definition set_handset2 (self : t) (v : Z) : t :=
  mk (featureRaportID self) (numberOfBytes self) (validFlag self) (ref1 self) (ref2 self) (ref3 self) (ref4 self) (ref1cnt self) (ref2cnt self) (ref3cnt self) (ref4cnt self) (ref5 self) (diagnostic self) (undefined1 self) (handset1 self) v (ref6 self) (ref7 self) (ref8 self) (undefined2 self).
Definition set_ref6 (self : t) (v : StatusPositionSpeed.t) : t :=
  mk (featureRaportID self) (numberOfBytes self) (validFlag self) (ref1 self) (ref2 self) (ref3 self) (ref4 self) (ref1cnt self) (ref2cnt self) (ref3cnt self) (ref4cnt self) (ref5 self) (diagnostic self) (undefined1 self) (handset1 self) (handset2 self) (Some v) (ref7 self) (ref8 self) (undefined2 self).
Definition set_ref7 (self : t) (v : StatusPositionSpeed.t) : t :=
  mk (featureRaportID self) (numberOfBytes self) (validFlag self) (ref1 self) (ref2 self) (ref3 self) (ref4 self) (ref1cnt self) (ref2cnt self) (ref3cnt self) (ref4cnt self) (ref5 self) (diagnostic self) (undefined1 self) (handset1 self) (handset2 self) (ref6 self) (Some v) (ref8 self) (undefined2 self).
Definition set_ref8 (self : t) (v : StatusPositionSpeed.t) : t :=
  mk (featureRaportID self) (numberOfBytes self) (validFlag self) (ref1 self) (ref2 self) (ref3 self) (ref4 self) (ref1cnt self) (ref2cnt self) (ref3cnt self) (ref4cnt self) (ref5 self) (diagnostic self) (undefined1 self) (handset1 self) (handset2 self) (ref6 self) (ref7 self) (Some v) (undefined2 self).
Definition set_undefined2 (self : t) (v : pystr) : t :=
  mk (featureRaportID self) (numberOfBytes self) (validFlag self) (ref1 self) (ref2 self) (ref3 self) (ref4 self) (ref1cnt self) (ref2cnt self) (ref3cnt self) (ref4cnt self) (ref5 self) (diagnostic self) (undefined1 self) (handset1 self) (handset2 self) (ref6 self) (ref7 self) (ref8 self) (Some v).

Definition from_buf (buf : bytes) : res t :=
  let self := cls in
  let raw := hex buf in
  b0 <- getbyte buf 0 ;;
  let self := set_featureRaportID self b0 in
  b1 <- getbyte buf 1 ;;
  let self := set_numberOfBytes self b1 in
  v <- ValidFlags.from_buf (slice 4 8 raw) ;;
  let self := set_validFlag self v in
  v <- StatusPositionSpeed.from_buf (slice 8 (8 + 8) raw) ;;
  let self := set_ref1 self v in
  v <- StatusPositionSpeed.from_buf (slice 16 (16 + 8) raw) ;;
  let self := set_ref2 self v in
  v <- StatusPositionSpeed.from_buf (slice 24 (24 + 8) raw) ;;
  let self := set_ref3 self v in
  v <- StatusPositionSpeed.from_buf (slice 32 (32 + 8) raw) ;;
  let self := set_ref4 self v in
  v <- int16 (slice 42 44 raw ++ slice 40 42 raw) ;;
  let self := set_ref1cnt self v in
  v <- int16 (slice 46 48 raw ++ slice 44 46 raw) ;;
  let self := set_ref2cnt self v in
  v <- int16 (slice 50 52 raw ++ slice 48 50 raw) ;;
  let self := set_ref3cnt self v in
  v <- int16 (slice 54 56 raw ++ slice 52 54 raw) ;;
  let self := set_ref4cnt self v in
  v <- StatusPositionSpeed.from_buf (slice 56 (56 + 8) raw) ;;
  let self := set_ref5 self v in
  let self := set_diagnostic self (slice 64 (64 + 16) raw) in
  let self := set_undefined1 self (slice 80 84 raw) in
  v <- int16 (slice 86 88 raw ++ slice 84 86 raw) ;;
  let self := set_handset1 self v in
  v <- int16 (slice 88 90 raw ++ slice 86 88 raw) ;;
  let self := set_handset2 self v in
  v <- StatusPositionSpeed.from_buf (slice 90 (90 + 8) raw) ;;
  let self := set_ref6 self v in
  v <- StatusPositionSpeed.from_buf (slice 98 (98 + 8) raw) ;;
  let self := set_ref7 self v in
  v <- StatusPositionSpeed.from_buf (slice 106 (106 + 8) raw) ;;
  let self := set_ref8 self v in
  let self := set_undefined2 self (slice_from 114 raw) in
  Ok self.

End StatusReport.

(** ** The controller *)

Module LinakController.

(** What one control transfer does: it completes, reporting the number of
    bytes transferred and leaving [data_buffer] in the 64-byte buffer, or
    the USB library raises. *)
Inductive Reply : Type :=
| Transferred (transferred : nat) (data_buffer : bytes)
| Failed.

Definition Transport := nat -> Reply.

(** Outcome of a controller method started after [calls] transfers.
    [Unfinished] is the outcome of a loop that is still iterating when the
    iterations granted to it are used up. *)
Inductive outcome (A : Type) : Type :=
| Returns (a : A) (calls : nat)
| Raises (e : PyExc)
| Unfinished.
Arguments Raises {A} e.
Arguments Unfinished {A}.

Definition M (A : Type) : Type := nat -> outcome A.

Definition ret {A} (a : A) : M A := fun calls => Returns a calls.

Definition bindM {A B} (c : M A) (k : A -> M B) : M B :=
  fun calls =>
    match c calls with
    | Returns a calls' => k a calls'
    | Raises e => Raises e
    | Unfinished => Unfinished
    end.

Definition lift {A} (c : res A) : M A :=
  fun calls =>
    match c with
    | Ok a => Returns a calls
    | Raise e => Raises e
    end.

Definition raise {A} (e : PyExc) : M A := fun _ => Raises e.

Declare Scope ctl_scope.
Delimit Scope ctl_scope with ctl.
Notation "x <- c ;; k" := (bindM c (fun x => k))
  (at level 61, c at next level, right associativity) : ctl_scope.
Notation "' pat <- c ;; k" := (bindM c (fun x => match x with pat => k end))
  (at level 61, pat pattern, c at next level, right associativity) : ctl_scope.

(** The blank-report test; [or] does not read [buf[1]] when [buf[0]]
    already differs. *)
Definition _is_status_report_not_ready (buf : bytes) : res bool :=
  b0 <- getbyte buf 0 ;;
  if negb (b0 =? CMD_STATUS_REPORT) then Ok false
  else
    b1 <- getbyte buf 1 ;;
    if negb (b1 =? NRB_STATUS_REPORT) then Ok false
    else
      r <- for_return (range 2 (Z.to_nat (LEN_STATUS_REPORT - 5)))
             (fun i =>
                b <- getbyte buf i ;;
                if negb (b =? 0) then Ok (Some false) else Ok None) ;;
      match r with
      | Some v => Ok v
      | None => Ok true
      end.

(** [r.ref1.pos] read as a number. *)
Definition ref1_pos (r : StatusReport.t) : res Z :=
  match StatusReport.ref1 r with
  | None => Raise AttributeError
  | Some ref1 =>
      match StatusPositionSpeed.pos ref1 with
      | None => Raise TypeError
      | Some p => Ok p
      end
  end.

(** Locals of [move] that never change. *)
Definition max_retry : Z := 3.
Definition epsilon : Z := 13.

(** How one pass through the body of [while True] ends. *)
Inductive loop_ctl : Type :=
| Break (r : StatusReport.t)
| Continue (retry_count prev_height : Z).

Section Controller.

Variable transport : Transport.

Open Scope ctl_scope.

(** One control transfer.  The request fields and the data sent do not
    enter the model: what the device makes of them is what the transport
    answers. *)
Definition _control_write_read (request_type request value index : Z)
           (data : bytes) (timeout : Z) : M (nat * bytes) :=
  fun calls =>
    match transport calls with
    | Transferred transferred data_buffer =>
        Returns (transferred, slice_to transferred data_buffer) (S calls)
    | Failed => Raises USBError
    end.

(** The response is checked against the request: byte 0 must be the id of
    the status report. *)
Definition _get_status_report : M bytes :=
  let buf := repeat x00 (Z.to_nat LEN_STATUS_REPORT) in
  buf <- lift (setitem buf 0 CMD_STATUS_REPORT) ;;
  '(_, buf) <- _control_write_read TYPE_GET_CI HID_REPORT_GET
                 REQ_GET_STATUS 0 buf LINAK_TIMEOUT ;;
  b0 <- lift (getbyte buf 0) ;;
  if negb (b0 =? CMD_STATUS_REPORT)
  then raise (Exception "Invalid status report received!")
  else ret buf.

(** Sends the height, low byte first, four times over; tells whether the
    transfer reported all 64 bytes. *)
Definition _move (height : Z) : M bool :=
  let buf := repeat x00 (Z.to_nat LEN_STATUS_REPORT) in
  buf <- lift (setitem buf 0 CMD_CONTROL_CBC) ;;
  let hHex := format_04x height in
  hHigh <- lift (int16 (slice_from 2 hHex)) ;;
  hLow <- lift (int16 (slice_to 2 hHex)) ;;
  buf <- lift (setitem buf 1 hHigh) ;;
  buf <- lift (setitem buf 2 hLow) ;;
  buf <- lift (setitem buf 3 hHigh) ;;
  buf <- lift (setitem buf 4 hLow) ;;
  buf <- lift (setitem buf 5 hHigh) ;;
  buf <- lift (setitem buf 6 hLow) ;;
  buf <- lift (setitem buf 7 hHigh) ;;
  buf <- lift (setitem buf 8 hLow) ;;
  '(amount, _) <- _control_write_read TYPE_SET_CI HID_REPORT_SET
                    REQ_MOVE 0 buf LINAK_TIMEOUT ;;
  ret (Z.of_nat amount =? LEN_STATUS_REPORT).

(** The body of the [while True] loop of [move], from the state of its
    two mutable locals.  The value of [self._move(target)] is dropped, as in
    the source. *)
Definition move_body (target retry_count prev_height : Z) : M loop_ctl :=
  _ <- _move target ;;
  buf <- _get_status_report ;;
  r <- lift (StatusReport.from_buf buf) ;;
  pos <- lift (ref1_pos r) ;;
  let distance := StatusReport.ref1cnt r - pos in
  let delta := Z.abs (prev_height - pos) in
  let retry_count :=
    if (Z.abs distance <=? epsilon) || (delta <=? epsilon) || (prev_height =? pos)
    then retry_count - 1
    else max_retry in
  if retry_count =? 0 then ret (Break r)
  else ret (Continue retry_count pos).

(** The [while True] loop, allowed [fuel] iterations. *)
Fixpoint move_loop (fuel : nat) (target retry_count prev_height : Z)
  : M StatusReport.t :=
  match fuel with
  | O => fun _ => Unfinished
  | S fuel' =>
      ctl <- move_body target retry_count prev_height ;;
      match ctl with
      | Break r => ret r
      | Continue retry_count prev_height =>
          move_loop fuel' target retry_count prev_height
      end
  end.

(** [move(target)], its loop allowed [fuel] iterations. *)
Definition move (fuel : nat) (target : Z) : M bool :=
  let retry_count := max_retry in
  let prev_height := 0 in
  r <- move_loop fuel target retry_count prev_height ;;
  pos <- lift (ref1_pos r) ;;
  ret (Z.abs (pos - target) <=? epsilon).

Definition get_height : M (Z * float) :=
  buf <- _get_status_report ;;
  r <- lift (StatusReport.from_buf buf) ;;
  pos <- lift (ref1_pos r) ;;
  ret (pos, PrimFloat.div (float_of_int pos) 98%float).

(** Writes the mode of operation; the transfer must report all 64 bytes. *)
Definition _set_status_report : M unit :=
  let buf := repeat x00 (Z.to_nat LEN_STATUS_REPORT) in
  buf <- lift (setitem buf 0 CMD_MODE_OF_OPERATION) ;;
  buf <- lift (setitem buf 1 DEF_MODE_OF_OPERATION) ;;
  buf <- lift (setitem buf 2 0) ;;
  buf <- lift (setitem buf 3 251) ;;
  '(amount, _) <- _control_write_read TYPE_SET_CI HID_REPORT_SET
                    REQ_INIT 0 buf LINAK_TIMEOUT ;;
  if negb (Z.of_nat amount =? LEN_STATUS_REPORT)
  then raise (Exception "Device is not ready yet. Initialization failed in step 1.")
  else ret tt.

Definition _move_down : M bool := _move HEIGHT_MOVE_DOWNWARDS.

Definition _move_up : M bool := _move HEIGHT_MOVE_UPWARDS.

Definition _move_end : M bool := _move HEIGHT_MOVE_END.

(** The handshake [__init__] runs once the interface is claimed. *)
Definition _init_device : M unit :=
  buf <- _get_status_report ;;
  not_ready <- lift (_is_status_report_not_ready buf) ;;
  if negb not_ready then ret tt
  else
    _ <- _set_status_report ;;
    ok <- _move_end ;;
    if negb ok
    then raise (Exception "Device not ready - initialization failed on step 2 (move_end)")
    else ret tt.

End Controller.

(** *** Releasing the device

    [close] reads and deletes two attributes of the instance.  The class
    gives both the value [None]; [__init__] sets both on the instance.  An
    [Instance] says which of the two the instance holds itself; [releases]
    counts the calls of [releaseInterface(0)] made so far.  Whether such a
    call succeeds is up to the device: the call made after [k] earlier ones
    succeeds when [release_ok k], and the USB library raises otherwise. *)

Record Instance : Type := mkInstance {
  own_handle : bool;
  own_ctx : bool
}.

Record World : Type := mkWorld {
  self : Instance;
  releases : nat
}.

(** [close()]: the world it leaves and the exception it raises, if any.
    [self._handle] is a handle object, which is true, when the instance
    holds it, and the [None] of the class otherwise; [del] of an attribute
    the instance does not hold raises [AttributeError]. *)
Definition close (release_ok : nat -> bool) (w : World) : World * option PyExc :=
  if own_handle (self w) then
    let w' := mkWorld (self w) (S (releases w)) in
    if negb (release_ok (releases w)) then (w', Some USBError)
    else
      let w' := mkWorld (mkInstance false (own_ctx (self w))) (S (releases w)) in
      if negb (own_ctx (self w)) then (w', Some AttributeError)
      else (mkWorld (mkInstance false false) (S (releases w)), None)
  else (w, Some AttributeError).

(** What the body of a [try] can raise: an exception of the class
    [Exception], which [except Exception] catches, or one outside that
    class ([KeyboardInterrupt], [SystemExit]), which it lets through. *)
Inductive Raised : Type :=
| OfException (e : PyExc)
| OutsideException.

(** The [try] / [except Exception as e] / [finally] of the main block, from
    what the body of the [try] raised ([None] when it ran to its end): the
    handler, entered for an exception of class [Exception] only, closes and
    raises [e] again; the [finally] clause closes.  An exception raised by a
    clause takes the place of the one in flight. *)
Definition main_guard (release_ok : nat -> bool) (body : option Raised) (w : World)
  : World * option Raised :=
  let '(w, in_flight) :=
    match body with
    | None => (w, None)
    | Some (OfException e) =>
        let '(w, raised) := close release_ok w in
        match raised with
        | Some e' => (w, Some (OfException e'))
        | None => (w, Some (OfException e))
        end
    | Some OutsideException => (w, Some OutsideException)
    end in
  let '(w, raised) := close release_ok w in
  match raised with
  | Some e' => (w, Some (OfException e'))
  | None => (w, in_flight)
  end.

End LinakController.

Import LinakController.

(** ** Vocabulary of the statements

    Closed forms of what the decoders compute, the facts about a run that
    the statements assume, and the sample devices they are tried on. *)

(** The character [bin] writes for a bit. *)
Definition bitchar (b : bool) : ascii := if b then "1"%char else "0"%char.

(** The [k] low bits of [n], most significant first. *)
Fixpoint msb_bits (k : nat) (n : Z) : pystr :=
  match k with
  | O => []
  | S k' => msb_bits k' (n / 2) ++ [bitchar (Z.odd n)]
  end.

(** What [Status.from_buf] makes of a status byte. *)
Definition status_of_byte (b : byte) : Status.t :=
  let v := byte_val b in
  Status.mk (Z.testbit v 7) (Z.testbit v 6) (Z.testbit v 5) (Z.testbit v 4) (v mod 16).

(** What [StatusPositionSpeed.from_buf] makes of the four bytes of a sample. *)
Definition sample_of_bytes (b0 b1 b2 b3 : byte) : StatusPositionSpeed.t :=
  StatusPositionSpeed.mk (Some (256 * byte_val b1 + byte_val b0))
                         (Some (status_of_byte b2))
                         (byte_val b3).

(** What [ValidFlags.from_buf] makes of a 16-bit word: the flags in the order
    of [attr], from bit 15 down to bit 0. *)
Definition flags_of_word (w : Z) : ValidFlags.t :=
  ValidFlags.mk
    (Z.testbit w 15) (Z.testbit w 14) (Z.testbit w 13) (Z.testbit w 12)
    (Z.testbit w 11) (Z.testbit w 10) (Z.testbit w 9) (Z.testbit w 8)
    (Z.testbit w 7) (Z.testbit w 6) (Z.testbit w 5) (Z.testbit w 4)
    (Z.testbit w 3) (Z.testbit w 2) (Z.testbit w 1) (Z.testbit w 0).

(** The byte at index [i] of a buffer that has one. *)
Definition byte_at (buf : bytes) (i : nat) : byte := nth i buf x00.

(** The 16-bit word whose low byte is at [lo] and high byte at [hi]. *)
Definition word_at (buf : bytes) (lo hi : nat) : Z :=
  256 * byte_val (byte_at buf hi) + byte_val (byte_at buf lo).

(** The sample held in the four bytes from offset [i]. *)
Definition sample_at (buf : bytes) (i : nat) : StatusPositionSpeed.t :=
  sample_of_bytes (byte_at buf i) (byte_at buf (i + 1))
                  (byte_at buf (i + 2)) (byte_at buf (i + 3)).

(** What [StatusReport.from_buf] makes of a 64-byte buffer, field by field,
    at the byte offsets its digit slices amount to. *)
Definition report_of_bytes (buf : bytes) : StatusReport.t :=
  StatusReport.mk
    (byte_val (byte_at buf 0))
    (byte_val (byte_at buf 1))
    (Some (flags_of_word (word_at buf 3 2)))
    (Some (sample_at buf 4))
    (Some (sample_at buf 8))
    (Some (sample_at buf 12))
    (Some (sample_at buf 16))
    (word_at buf 20 21)
    (word_at buf 22 23)
    (word_at buf 24 25)
    (word_at buf 26 27)
    (Some (sample_at buf 28))
    (Some (hex (slice 32 40 buf)))
    (Some (hex (slice 40 42 buf)))
    (word_at buf 42 43)
    (word_at buf 43 44)
    (Some (sample_at buf 45))
    (Some (sample_at buf 49))
    (Some (sample_at buf 53))
    (Some (hex (slice_from 57 buf))).

(** Bytes 2 to 58 are all zero. *)
Definition payload_zero (buf : bytes) : bool :=
  forallb (fun i => byte_val (byte_at buf i) =? 0) (range 2 59).

(** What [_get_status_report] raises when byte 0 is not the report id. *)
Definition invalid_report : PyExc := Exception "Invalid status report received!".

(** The command buffer [_move] builds before the transfer. *)
Definition move_command (height : Z) : res bytes :=
  let buf := repeat x00 (Z.to_nat LEN_STATUS_REPORT) in
  buf <- setitem buf 0 CMD_CONTROL_CBC ;;
  let hHex := format_04x height in
  hHigh <- int16 (slice_from 2 hHex) ;;
  hLow <- int16 (slice_to 2 hHex) ;;
  buf <- setitem buf 1 hHigh ;;
  buf <- setitem buf 2 hLow ;;
  buf <- setitem buf 3 hHigh ;;
  buf <- setitem buf 4 hLow ;;
  buf <- setitem buf 5 hHigh ;;
  buf <- setitem buf 6 hLow ;;
  buf <- setitem buf 7 hHigh ;;
  buf <- setitem buf 8 hLow ;;
  Ok buf.

(** [P] holds of the [n] integers from [lo] on. *)
Fixpoint all_from (n : nat) (lo : Z) (P : Z -> bool) : bool :=
  match n with
  | O => true
  | S n' => P lo && all_from n' (lo + 1) P
  end.

(** [_move] gets as far as the transfer for this height. *)
Definition has_command (height : Z) : bool :=
  match move_command height with
  | Ok _ => true
  | Raise _ => false
  end.

(** The [n]-th transfer completes, whatever count it reports. *)
Definition completes (tr : Transport) (n : nat) : Prop :=
  exists amount data, tr n = Transferred amount data.

(** The [n]-th transfer hands the program the 64-byte buffer [buf]. *)
Definition receives (tr : Transport) (n : nat) (buf : bytes) : Prop :=
  exists t data,
    tr n = Transferred t data /\ slice_to t data = buf /\ length buf = 64%nat.

(** The status fetch followed by the decoding of what it returned: the first
    two statements of the loop body of [move] after the command, and of
    [get_height]. *)
Definition fetch_report (tr : Transport) : M StatusReport.t :=
  bindM (_get_status_report tr) (fun buf => lift (StatusReport.from_buf buf)).

(** The test of the [if] in the loop of [move], for the report [r] with
    [r.ref1.pos = pos]: the poll counts as settled. *)
Definition settled (r : StatusReport.t) (pos prev_height : Z) : bool :=
  (Z.abs (StatusReport.ref1cnt r - pos) <=? epsilon)
  || (Z.abs (prev_height - pos) <=? epsilon)
  || (prev_height =? pos).

(** How an iteration of the loop of [move] ends once its report is decoded. *)
Definition next_ctl (r : StatusReport.t) (pos retry_count prev_height : Z) : loop_ctl :=
  let retry_count :=
    if settled r pos prev_height then retry_count - 1 else max_retry in
  if retry_count =? 0 then Break r else Continue retry_count pos.

(** A status report of a desk at raw height [256 * hi + lo] (bytes 4 and 5)
    whose counter [ref1cnt] (bytes 20 and 21) is [256 * chi + clo]. *)
Definition status_buffer (id lo hi clo chi : byte) : bytes :=
  id :: x38 :: x00 :: x00 :: lo :: hi :: repeat x00 14
     ++ clo :: chi :: repeat x00 42.

(** A device that answers every transfer in full with the same buffer. *)
Definition steady (buf : bytes) : Transport := fun _ => Transferred 64 buf.

(** A desk resting at raw height 4900 whose counter reads 0. *)
Definition resting_desk : Transport := steady (status_buffer x04 x24 x13 x00 x00).

(** The height the loop remembers when it starts iteration [k], for polled
    positions [p 0], [p 1], ... *)
Definition prev_of (p : nat -> Z) (k : nat) : Z :=
  match k with
  | O => 0
  | S j => p j
  end.

(** A desk that moves between raw heights 1000 and 2000 from one poll to the
    next, its counter reading 0. *)
Definition moving_desk : Transport :=
  fun n => if Nat.even (Nat.div2 n)
           then Transferred 64 (status_buffer x04 xe8 x03 x00 x00)
           else Transferred 64 (status_buffer x04 xd0 x07 x00 x00).

(** The resting desk again, but every command transfer reports that nothing
    was transferred. *)
Definition deaf_desk : Transport :=
  fun n => if Nat.even n then Transferred 0 []
           else Transferred 64 (status_buffer x04 x24 x13 x00 x00).

(** A sample all of whose attributes have been assigned. *)
Definition sample_populated (ref : option StatusPositionSpeed.t) : Prop :=
  exists p st sp, ref = Some (StatusPositionSpeed.mk (Some p) (Some st) sp).

(** A report none of whose attributes is left at a class-level [None]. *)
Definition populated (r : StatusReport.t) : Prop :=
  StatusReport.validFlag r <> None /\
  sample_populated (StatusReport.ref1 r) /\
  sample_populated (StatusReport.ref2 r) /\
  sample_populated (StatusReport.ref3 r) /\
  sample_populated (StatusReport.ref4 r) /\
  sample_populated (StatusReport.ref5 r) /\
  StatusReport.diagnostic r <> None /\
  StatusReport.undefined1 r <> None /\
  sample_populated (StatusReport.ref6 r) /\
  sample_populated (StatusReport.ref7 r) /\
  sample_populated (StatusReport.ref8 r) /\
  StatusReport.undefined2 r <> None.

(** The buffer whose byte 0 is [id], every other byte being its own index. *)
Definition counting_buffer (id : byte) : bytes :=
  id :: map (fun i => match Byte.of_N (N.of_nat i) with
                      | Some b => b
                      | None => x00
                      end) (seq 1 63).

(** The blank report: id 4, length 56, nothing else. *)
Definition not_ready_buffer : bytes := x04 :: x38 :: repeat x00 62.

(** The bytes of the command for [height], as numbers: the id of the
    command, then the low and the high byte of the height in each of four
    slots, then zeros. *)
Definition command_bytes (height : Z) : list Z :=
  let lo := height mod 256 in
  let hi := height / 256 in
  CMD_CONTROL_CBC :: lo :: hi :: lo :: hi :: lo :: hi :: lo :: hi :: repeat 0 55.

Fixpoint Zlist_eqb (xs ys : list Z) : bool :=
  match xs, ys with
  | [], [] => true
  | x :: xs', y :: ys' => (x =? y) && Zlist_eqb xs' ys'
  | _, _ => false
  end.

(** [_move] builds the command of [command_bytes] for this height. *)
Definition builds_command (height : Z) : bool :=
  match move_command height with
  | Ok buf => Zlist_eqb (map byte_val buf) (command_bytes height)
  | Raise _ => false
  end.

(** What [_set_status_report] and [_init_device] raise. *)
Definition init_failed_step1 : PyExc :=
  Exception "Device is not ready yet. Initialization failed in step 1.".

Definition init_failed_step2 : PyExc :=
  Exception "Device not ready - initialization failed on step 2 (move_end)".

(** The controller as [__init__] leaves it, the interface having been
    asked [k] times already to release. *)
Definition constructed (k : nat) : World :=
  mkWorld (mkInstance true true) k.

(** The controller once closed. *)
Definition closed (k : nat) : World :=
  mkWorld (mkInstance false false) k.

(** * Properties *)

(** ** Bytes and hexadecimal text *)

Lemma byte_val_range (b : byte) : 0 <= byte_val b < 256.
Proof.
  unfold byte_val. pose proof (Byte.to_N_bounded b). lia.
Qed.

Lemma hexval_high_digit (b : byte) :
  hexval (hexdigit (byte_val b / 16)) = Some (byte_val b / 16).
Proof. destruct b; vm_compute; reflexivity. Qed.

Lemma hexval_low_digit (b : byte) :
  hexval (hexdigit (byte_val b mod 16)) = Some (byte_val b mod 16).
Proof. destruct b; vm_compute; reflexivity. Qed.

Lemma high_digit_not_sign (b : byte) : is_sign (hexdigit (byte_val b / 16)) = false.
Proof. destruct b; vm_compute; reflexivity. Qed.

(** Parsing the two digits of a byte shifts the accumulator by one byte. *)
Lemma int16_digits_hex_byte (b : byte) (acc : Z) (rest : pystr) :
  int16_digits acc (hex_byte b ++ rest) = int16_digits (256 * acc + byte_val b) rest.
Proof.
  unfold hex_byte. cbn [app int16_digits].
  rewrite hexval_high_digit, hexval_low_digit. f_equal.
  pose proof (Z.div_mod (byte_val b) 16). lia.
Qed.

Lemma int16_unsigned (b : byte) (rest : pystr) :
  int16 (hex_byte b ++ rest) = int16_digits 0 (hex_byte b ++ rest).
Proof.
  unfold hex_byte, int16. cbn [app]. now rewrite high_digit_not_sign.
Qed.

Lemma int16_hex_byte (b : byte) : int16 (hex_byte b) = Ok (byte_val b).
Proof.
  rewrite <- (app_nil_r (hex_byte b)), int16_unsigned, int16_digits_hex_byte.
  reflexivity.
Qed.

(** The byte-swap: the digits of [hi] put before those of [lo]. *)
Lemma int16_hex_pair (hi lo : byte) :
  int16 (hex_byte hi ++ hex_byte lo) = Ok (256 * byte_val hi + byte_val lo).
Proof.
  rewrite int16_unsigned, <- (app_nil_r (hex_byte lo)), !int16_digits_hex_byte.
  reflexivity.
Qed.

Lemma hex_skipn (n : nat) (buf : bytes) : skipn (2 * n) (hex buf) = hex (skipn n buf).
Proof.
  revert buf. induction n as [|n IH]; intro buf; [reflexivity|].
  destruct buf as [|b buf]; [reflexivity|].
  replace (2 * S n)%nat with (S (S (2 * n))) by lia.
  cbn [hex flat_map hex_byte app skipn]. apply IH.
Qed.

Lemma hex_firstn (n : nat) (buf : bytes) : firstn (2 * n) (hex buf) = hex (firstn n buf).
Proof.
  revert buf. induction n as [|n IH]; intro buf; [reflexivity|].
  destruct buf as [|b buf]; [reflexivity|].
  replace (2 * S n)%nat with (S (S (2 * n))) by lia.
  cbn [hex flat_map hex_byte app firstn]. fold (hex buf). now rewrite IH.
Qed.

(** A slice of the digit stream at even offsets is the digit stream of the
    corresponding slice of bytes. *)
Lemma slice_hex (a b : nat) (buf : bytes) :
  slice (2 * a) (2 * b) (hex buf) = hex (slice a b buf).
Proof.
  unfold slice. rewrite hex_skipn.
  replace (2 * b - 2 * a)%nat with (2 * (b - a))%nat by lia.
  apply hex_firstn.
Qed.

Lemma slice_from_hex (a : nat) (buf : bytes) :
  slice_from (2 * a) (hex buf) = hex (slice_from a buf).
Proof. apply hex_skipn. Qed.

Lemma slice_to_hex (b : nat) (buf : bytes) :
  slice_to (2 * b) (hex buf) = hex (slice_to b buf).
Proof. apply hex_firstn. Qed.

Lemma hex_single (b : byte) : hex [b] = hex_byte b.
Proof. apply app_nil_r. Qed.

(** Moves every slice of a digit stream to the bytes it comes from, and
    evaluates the slice there. *)
Ltac byte_slices :=
  repeat match goal with
    | |- context [slice ?a ?b (hex ?buf)] =>
        let a' := eval cbv in (Nat.div2 a) in
        let b' := eval cbv in (Nat.div2 b) in
        change (slice a b (hex buf)) with (slice (2 * a') (2 * b') (hex buf));
        rewrite (slice_hex a' b' buf)
    | |- context [slice_from ?a (hex ?buf)] =>
        let a' := eval cbv in (Nat.div2 a) in
        change (slice_from a (hex buf)) with (slice_from (2 * a') (hex buf));
        rewrite (slice_from_hex a' buf)
    | |- context [slice_to ?b (hex ?buf)] =>
        let b' := eval cbv in (Nat.div2 b) in
        change (slice_to b (hex buf)) with (slice_to (2 * b') (hex buf));
        rewrite (slice_to_hex b' buf)
    end;
  cbv [slice slice_from slice_to firstn skipn Nat.sub].

Lemma int16_hex_swapped (lo hi : byte) :
  int16 (hex [hi] ++ hex [lo]) = Ok (256 * byte_val hi + byte_val lo).
Proof. rewrite !hex_single. apply int16_hex_pair. Qed.

Lemma int16_hex_single (b : byte) : int16 (hex [b]) = Ok (byte_val b).
Proof. rewrite hex_single. apply int16_hex_byte. Qed.

(** ** Closed forms of the decoders *)

Lemma Status_from_buf_hex (b : byte) :
  Status.from_buf (hex [b]) = Ok (status_of_byte b).
Proof. destruct b; vm_compute; reflexivity. Qed.

Lemma StatusPositionSpeed_from_buf_hex (b0 b1 b2 b3 : byte) :
  StatusPositionSpeed.from_buf (hex [b0; b1; b2; b3]) = Ok (sample_of_bytes b0 b1 b2 b3).
Proof.
  unfold StatusPositionSpeed.from_buf. byte_slices.
  rewrite int16_hex_swapped, Status_from_buf_hex, int16_hex_single.
  reflexivity.
Qed.

(** *** Binary text *)

Lemma msb_bits_zero (k : nat) : msb_bits k 0 = repeat "0"%char k.
Proof.
  induction k as [|k IH]; [reflexivity|].
  cbn [msb_bits]. change (0 / 2) with 0. rewrite IH.
  change [bitchar (Z.odd 0)] with (repeat "0"%char 1).
  rewrite <- repeat_app. f_equal. lia.
Qed.

Lemma bin_digits_head (p : positive) :
  exists t, bin_digits p = "1"%char :: t.
Proof.
  induction p as [q [t IH]|q [t IH]|]; cbn [bin_digits].
  - rewrite IH. eexists. reflexivity.
  - rewrite IH. eexists. reflexivity.
  - eexists. reflexivity.
Qed.

(** Left-padding the digits of [bin] with zeros gives the bits of the number. *)
Lemma bin_digits_padded (p : positive) :
  forall k, Z.pos p < 2 ^ Z.of_nat k ->
            repeat "0"%char (k - length (bin_digits p)) ++ bin_digits p
            = msb_bits k (Z.pos p).
Proof.
  induction p as [q IH|q IH|]; intros k H;
    (destruct k as [|k]; [cbn in H; lia|]);
    rewrite Nat2Z.inj_succ, Z.pow_succ_r in H by lia;
    cbn [bin_digits msb_bits].
  - rewrite length_app, app_assoc. cbn [length].
    replace (S k - (length (bin_digits q) + 1))%nat
      with (k - length (bin_digits q))%nat by lia.
    rewrite IH by lia.
    replace (Z.pos q~1 / 2) with (Z.pos q)
      by (apply Z.div_unique with (r := 1); lia).
    reflexivity.
  - rewrite length_app, app_assoc. cbn [length].
    replace (S k - (length (bin_digits q) + 1))%nat
      with (k - length (bin_digits q))%nat by lia.
    rewrite IH by lia.
    replace (Z.pos q~0 / 2) with (Z.pos q)
      by (apply Z.div_unique with (r := 0); lia).
    reflexivity.
  - cbn [length]. change (1 / 2) with 0. rewrite msb_bits_zero.
    f_equal. f_equal. lia.
Qed.

(** [bin(n)[2:].zfill(k)] is the [k]-bit binary text of [n]. *)
Lemma zfill_bin (k : nat) (n : Z) :
  (0 < k)%nat -> 0 <= n < 2 ^ Z.of_nat k ->
  zfill k (slice_from 2 (bin n)) = msb_bits k n.
Proof.
  intros Hk Hn. destruct n as [|p|p]; [| |lia].
  - rewrite msb_bits_zero. cbn. destruct k as [|k]; [lia|].
    cbn [repeat]. replace (S k - 1)%nat with k by lia.
    change ["0"%char] with (repeat "0"%char 1). rewrite <- repeat_app.
    replace (k + 1)%nat with (S k) by lia. reflexivity.
  - change (slice_from 2 (bin (Z.pos p))) with (bin_digits p).
    rewrite <- bin_digits_padded by lia.
    destruct (bin_digits_head p) as [t Ht]. rewrite Ht. reflexivity.
Qed.

Lemma odd_testbit (w : Z) (i : Z) :
  0 <= i -> Z.odd (w / 2 ^ i) = Z.testbit w i.
Proof.
  intro Hi. now rewrite Z.testbit_odd, Z.shiftr_div_pow2.
Qed.

Lemma eqb_bitchar (b : bool) : Ascii.eqb (bitchar b) "1" = b.
Proof. destruct b; reflexivity. Qed.

(** The sixteen bits of a word, as [msb_bits] lists them. *)
Lemma msb_bits_16 (w : Z) :
  msb_bits 16 w = map (fun i => bitchar (Z.testbit w i))
                      [15; 14; 13; 12; 11; 10; 9; 8; 7; 6; 5; 4; 3; 2; 1; 0].
Proof.
  cbn [msb_bits map app].
  rewrite !Z.div_div by lia.
  rewrite <- !odd_testbit by lia.
  change (2 ^ 0) with 1. rewrite Z.div_1_r.
  reflexivity.
Qed.

Lemma ValidFlags_from_word (buf : pystr) (w : Z) :
  int16 buf = Ok w -> 0 <= w < 65536 ->
  ValidFlags.from_buf buf = Ok (flags_of_word w).
Proof.
  intros Hbuf Hw. unfold ValidFlags.from_buf. rewrite Hbuf. cbn [bind].
  rewrite zfill_bin by (change (Z.of_nat 16) with 16; lia).
  rewrite msb_bits_16.
  cbn [map enumerate length seq combine for_each].
  rewrite !eqb_bitchar.
  cbv [bind getitem nth_error ValidFlags.attr ValidFlags.setattr ValidFlags.cls
    ValidFlags.ID00_Ref1_pos_stat_speed
    ValidFlags.ID01_Ref2_pos_stat_speed ValidFlags.ID02_Ref3_pos_stat_speed
    ValidFlags.ID03_Ref4_pos_stat_speed ValidFlags.ID10_Ref1_controlInput
    ValidFlags.ID11_Ref2_controlInput ValidFlags.ID12_Ref3_controlInput
    ValidFlags.ID13_Ref4_controlInput ValidFlags.ID04_Ref5_pos_stat_speed
    ValidFlags.ID28_Diagnostic ValidFlags.ID05_Ref6_pos_stat_speed
    ValidFlags.ID37_Handset1command ValidFlags.ID38_Handset2command
    ValidFlags.ID06_Ref7_pos_stat_speed ValidFlags.ID07_Ref8_pos_stat_speed
    ValidFlags.unknown].
  reflexivity.
Qed.

Lemma ValidFlags_from_buf_hex (a b : byte) :
  ValidFlags.from_buf (hex [a; b]) = Ok (flags_of_word (256 * byte_val a + byte_val b)).
Proof.
  apply ValidFlags_from_word.
  - change (hex [a; b]) with (hex [a] ++ hex [b]). apply int16_hex_swapped.
  - pose proof (byte_val_range a). pose proof (byte_val_range b). lia.
Qed.

(** *** The whole report *)

(** Names the elements of a list whose length is known. *)
Ltac explode_list H :=
  repeat match type of H with
    | length ?l = S _ =>
        destruct l as [|? l]; [discriminate H|];
        cbn [length] in H; apply Nat.succ_inj in H
    | length ?l = O =>
        destruct l; [clear H|discriminate H]
    end.

Lemma from_buf_report_of_bytes (buf : bytes) :
  length buf = 64%nat ->
  StatusReport.from_buf buf = Ok (report_of_bytes buf).
Proof.
  intro H. explode_list H.
  unfold StatusReport.from_buf. cbn [Nat.add]. byte_slices.
  rewrite ValidFlags_from_buf_hex, !StatusPositionSpeed_from_buf_hex,
    !int16_hex_swapped.
  reflexivity.
Qed.

(** ** The not-ready signature *)

Lemma getbyte_in_range (buf : bytes) (i : nat) :
  (i < length buf)%nat -> getbyte buf i = Ok (byte_val (byte_at buf i)).
Proof.
  intro H. unfold getbyte, getitem, byte_at.
  rewrite (nth_error_nth' buf x00 H). reflexivity.
Qed.

(** The scan over the payload bytes stops at the first non-zero one. *)
Lemma scan_zero_bytes (buf : bytes) (idxs : list nat) :
  (forall i, In i idxs -> (i < length buf)%nat) ->
  for_return idxs
    (fun i => b <- getbyte buf i ;;
              if negb (b =? 0) then Ok (Some false) else Ok None)
  = Ok (if forallb (fun i => byte_val (byte_at buf i) =? 0) idxs
        then None else Some false).
Proof.
  induction idxs as [|i idxs IH]; intro Hin; [reflexivity|].
  cbn [for_return forallb].
  rewrite getbyte_in_range by (apply Hin; now left). cbn [bind].
  destruct (byte_val (byte_at buf i) =? 0); cbn [negb andb bind]; [|reflexivity].
  apply IH. intros j Hj. apply Hin. now right.
Qed.

Lemma update_length {A} (xs : list A) (i : nat) (v : A) (ys : list A) :
  update xs i v = Some ys -> length ys = length xs.
Proof.
  revert i ys. induction xs as [|x xs IH]; intros [|i] ys H; cbn in H;
    try discriminate.
  - injection H as <-. reflexivity.
  - destruct (update xs i v) as [zs|] eqn:E; [|discriminate].
    injection H as <-. cbn. f_equal. eapply IH, E.
Qed.

Lemma update_nth_same {A} (xs : list A) (i : nat) (v d : A) (ys : list A) :
  update xs i v = Some ys -> nth i ys d = v.
Proof.
  revert i ys. induction xs as [|x xs IH]; intros [|i] ys H; cbn in H;
    try discriminate.
  - injection H as <-. reflexivity.
  - destruct (update xs i v) as [zs|] eqn:E; [|discriminate].
    injection H as <-. cbn. eapply IH, E.
Qed.

Lemma payload_zero_spec (buf : bytes) :
  payload_zero buf = true <->
  forall i, (2 <= i <= 58)%nat -> byte_val (byte_at buf i) = 0.
Proof.
  unfold payload_zero. rewrite forallb_forall. split.
  - intros E i Hi. apply Z.eqb_eq, E, in_seq. lia.
  - intros E i Hi. apply Z.eqb_eq, E. apply in_seq in Hi. lia.
Qed.

(** The signature test on a full-length buffer, as a boolean formula. *)
Lemma not_ready_formula (buf : bytes) :
  length buf = 64%nat ->
  _is_status_report_not_ready buf
  = Ok ((byte_val (byte_at buf 0) =? CMD_STATUS_REPORT)
        && (byte_val (byte_at buf 1) =? NRB_STATUS_REPORT)
        && payload_zero buf).
Proof.
  intro H. unfold _is_status_report_not_ready.
  rewrite !getbyte_in_range by lia. cbn [bind].
  destruct (byte_val (byte_at buf 0) =? CMD_STATUS_REPORT); [|reflexivity].
  cbn [negb andb].
  destruct (byte_val (byte_at buf 1) =? NRB_STATUS_REPORT); [|reflexivity].
  cbn [negb andb].
  change (Z.to_nat (LEN_STATUS_REPORT - 5)) with 59%nat.
  rewrite scan_zero_bytes.
  - cbn [bind]. unfold payload_zero. now destruct (forallb _ _).
  - intros i Hi. apply in_seq in Hi. lia.
Qed.

(** C6: on a 64-byte buffer the not-ready test returns (it never raises),
    and it returns [True] exactly when byte 0 is the status command id 4,
    byte 1 is 56 and every byte at an index from 2 to 58 is zero; so a buffer
    in which one byte of that range has been set to a non-zero value is
    answered [False]. *)
Theorem C6_not_ready_signature (buf : bytes) :
  length buf = 64%nat ->
  (exists v, _is_status_report_not_ready buf = Ok v) /\
  (_is_status_report_not_ready buf = Ok true <->
     byte_val (byte_at buf 0) = 4 /\
     byte_val (byte_at buf 1) = 56 /\
     forall i, (2 <= i < 64 - 5)%nat -> byte_val (byte_at buf i) = 0) /\
  (forall (i : nat) (b : byte) (buf' : bytes),
      (2 <= i <= 58)%nat -> byte_val b <> 0 -> update buf i b = Some buf' ->
      _is_status_report_not_ready buf' = Ok false).
Proof.
  intro H. split; [|split].
  - rewrite not_ready_formula by assumption. eexists. reflexivity.
  - rewrite not_ready_formula by assumption.
    unfold CMD_STATUS_REPORT, NRB_STATUS_REPORT. split.
    + intro E. injection E as E.
      apply andb_prop in E as [E E3]. apply andb_prop in E as [E1 E2].
      repeat split; [lia|lia|].
      intros i Hi. apply payload_zero_spec; [assumption|lia].
    + intros (E1 & E2 & E3). f_equal.
      rewrite E1, E2. cbn [Z.eqb Pos.eqb andb].
      apply payload_zero_spec. intros i Hi. apply E3. lia.
  - intros i b buf' Hi Hb Hu.
    assert (H' : length buf' = 64%nat) by (now rewrite (@update_length _ _ _ _ _ Hu)).
    rewrite not_ready_formula by assumption.
    f_equal. apply andb_false_iff. right.
    apply not_true_is_false. intro E.
    apply Hb. rewrite <- (@update_nth_same _ _ _ _ x00 _ Hu).
    apply (proj1 (payload_zero_spec buf') E). lia.
Qed.

Lemma C6_not_ready_signature_witness :
  _is_status_report_not_ready not_ready_buffer = Ok true /\
  _is_status_report_not_ready (x04 :: x38 :: repeat x00 56 ++ x01 :: repeat x00 5)
  = Ok false.
Proof.
  destruct (C6_not_ready_signature not_ready_buffer eq_refl) as (_ & Hiff & Hflip).
  split.
  - apply Hiff. repeat split.
    intros i Hi. unfold byte_at, not_ready_buffer.
    do 59 (destruct i as [|i]; [try reflexivity; lia|]). lia.
  - apply (Hflip 58%nat x01); [lia|discriminate|reflexivity].
Defined.

(** ** Control transfers *)

(** [_get_status_report] is one transfer followed by the check of byte 0 of
    what came back. *)
Lemma get_status_report_unfold (tr : Transport) (n : nat) :
  _get_status_report tr n =
  match tr n with
  | Failed => Raises USBError
  | Transferred t data =>
      match getbyte (slice_to t data) 0 with
      | Raise e => Raises e
      | Ok b0 => if negb (b0 =? CMD_STATUS_REPORT) then Raises invalid_report
                 else Returns (slice_to t data) (S n)
      end
  end.
Proof.
  unfold _get_status_report, bindM, lift, _control_write_read.
  change (setitem (repeat x00 (Z.to_nat LEN_STATUS_REPORT)) 0 CMD_STATUS_REPORT)
    with (Ok (x04 :: repeat x00 63)).
  cbv beta iota.
  destruct (tr n) as [t data|]; [|reflexivity].
  destruct (getbyte (slice_to t data) 0) as [b0|e]; [|reflexivity].
  destruct (negb (b0 =? CMD_STATUS_REPORT)); reflexivity.
Qed.

Ltac case_res :=
  match goal with
  | |- context [match ?c with Ok _ => _ | Raise _ => _ end] =>
      destruct c; cbn [bind]; try reflexivity
  end.

Lemma move_unfold (tr : Transport) (height : Z) (n : nat) :
  _move tr height n =
  match move_command height with
  | Raise e => Raises e
  | Ok _ =>
      match tr n with
      | Failed => Raises USBError
      | Transferred amount _ => Returns (Z.of_nat amount =? LEN_STATUS_REPORT) (S n)
      end
  end.
Proof.
  unfold _move, move_command, bindM, lift, _control_write_read, bind.
  repeat case_res.
  destruct (tr n); reflexivity.
Qed.

Lemma all_from_spec (P : Z -> bool) (n : nat) :
  forall lo, all_from n lo P = true ->
             forall k, lo <= k < lo + Z.of_nat n -> P k = true.
Proof.
  induction n as [|n IH]; intros lo H k Hk; [lia|].
  cbn [all_from] in H. apply andb_prop in H as [H0 H1].
  destruct (Z.eq_dec k lo) as [->|Hne]; [assumption|].
  apply (IH (lo + 1) H1). lia.
Qed.

Lemma all_heights_have_command :
  all_from (Z.to_nat 65536) 0 has_command = true.
Proof. vm_compute. reflexivity. Qed.

Lemma move_command_ok (height : Z) :
  0 <= height < 65536 -> exists buf, move_command height = Ok buf.
Proof.
  intro H.
  pose proof (@all_from_spec has_command _ _ all_heights_have_command height) as A.
  unfold has_command in A.
  destruct (move_command height) as [buf|e].
  - now exists buf.
  - discriminate A. lia.
Qed.

(** ** Fetching and decoding a status report *)

Lemma get_status_report_accepts (tr : Transport) (n : nat) (buf : bytes) :
  receives tr n buf -> byte_val (byte_at buf 0) = CMD_STATUS_REPORT ->
  _get_status_report tr n = Returns buf (S n).
Proof.
  intros (t & data & Ht & <- & Hlen) H0.
  rewrite get_status_report_unfold, Ht, getbyte_in_range by lia.
  rewrite H0. reflexivity.
Qed.

Lemma get_status_report_rejects (tr : Transport) (n : nat) (buf : bytes) :
  receives tr n buf -> byte_val (byte_at buf 0) <> CMD_STATUS_REPORT ->
  _get_status_report tr n = Raises invalid_report.
Proof.
  intros (t & data & Ht & <- & Hlen) H0.
  rewrite get_status_report_unfold, Ht, getbyte_in_range by lia.
  apply Z.eqb_neq in H0. now rewrite H0.
Qed.

Lemma fetch_report_accepts (tr : Transport) (n : nat) (buf : bytes) :
  receives tr n buf -> byte_val (byte_at buf 0) = CMD_STATUS_REPORT ->
  fetch_report tr n = Returns (report_of_bytes buf) (S n).
Proof.
  intros Hr H0. unfold fetch_report, bindM.
  rewrite (get_status_report_accepts Hr H0).
  destruct Hr as (_ & _ & _ & _ & Hlen).
  unfold lift. now rewrite from_buf_report_of_bytes.
Qed.

Lemma fetch_report_rejects (tr : Transport) (n : nat) (buf : bytes) :
  receives tr n buf -> byte_val (byte_at buf 0) <> CMD_STATUS_REPORT ->
  fetch_report tr n = Raises invalid_report.
Proof.
  intros Hr H0. unfold fetch_report, bindM.
  now rewrite (get_status_report_rejects Hr H0).
Qed.

Lemma get_height_fetch (tr : Transport) (n : nat) :
  get_height tr n =
  match fetch_report tr n with
  | Returns r n' =>
      match ref1_pos r with
      | Ok pos => Returns (pos, PrimFloat.div (float_of_int pos) 98%float) n'
      | Raise e => Raises e
      end
  | Raises e => Raises e
  | Unfinished => Unfinished
  end.
Proof.
  unfold get_height, fetch_report, bindM, lift, ret.
  destruct (_get_status_report tr n) as [buf n'|e|]; try reflexivity.
  destruct (StatusReport.from_buf buf) as [r|e]; try reflexivity.
  destruct (ref1_pos r); reflexivity.
Qed.

Lemma move_body_fetch (tr : Transport) (target retry_count prev_height : Z) (n : nat) :
  move_body tr target retry_count prev_height n =
  match _move tr target n with
  | Returns _ n1 =>
      match fetch_report tr n1 with
      | Returns r n2 =>
          match ref1_pos r with
          | Ok pos => Returns (next_ctl r pos retry_count prev_height) n2
          | Raise e => Raises e
          end
      | Raises e => Raises e
      | Unfinished => Unfinished
      end
  | Raises e => Raises e
  | Unfinished => Unfinished
  end.
Proof.
  unfold move_body, fetch_report, bindM, lift, ret, next_ctl, settled.
  destruct (_move tr target n) as [b n1|e|]; try reflexivity.
  destruct (_get_status_report tr n1) as [buf n2|e|]; try reflexivity.
  destruct (StatusReport.from_buf buf) as [r|e]; try reflexivity.
  destruct (ref1_pos r) as [pos|e]; try reflexivity.
  destruct (_ || _); destruct (_ =? 0); reflexivity.
Qed.

Lemma move_completes (tr : Transport) (target : Z) (n : nat) :
  0 <= target < 65536 -> completes tr n ->
  exists b, _move tr target n = Returns b (S n).
Proof.
  intros Ht (amount & data & Hn).
  destruct (move_command_ok Ht) as [buf Hbuf].
  rewrite move_unfold, Hbuf, Hn. eexists. reflexivity.
Qed.

(** One iteration of the loop of [move] whose command transfer completes
    and whose poll decodes to [r]. *)
Lemma move_body_step (tr : Transport) (target retry_count prev_height : Z)
      (n : nat) (r : StatusReport.t) (pos : Z) :
  0 <= target < 65536 -> completes tr n ->
  fetch_report tr (S n) = Returns r (S (S n)) -> ref1_pos r = Ok pos ->
  move_body tr target retry_count prev_height n
  = Returns (next_ctl r pos retry_count prev_height) (S (S n)).
Proof.
  intros Ht Hc Hf Hp. rewrite move_body_fetch.
  destruct (move_completes Ht Hc) as [b Hb].
  now rewrite Hb, Hf, Hp.
Qed.

Lemma decoded_report_populated (buf : bytes) : populated (report_of_bytes buf).
Proof.
  unfold populated, report_of_bytes; cbn.
  repeat split; try discriminate; do 3 eexists; reflexivity.
Qed.

(** C1, amended: the check of byte 0 is made by the fetch, not by the
    decoder.  A 64-byte buffer that comes back with byte 0 different from
    the status-report command id 4 is refused with the exception
    'Invalid status report received!' by [_get_status_report], before
    [StatusReport.from_buf] is called: the fetch-and-decode raises it, and so
    do [get_height] and the loop body of [move]; no report is returned.
    [StatusReport.from_buf] itself does not look at byte 0: given the same
    buffer it returns a report with every attribute assigned, whose
    [featureRaportID] is that byte.  The outcome of the fetch-and-decode is
    a function of the buffer alone: two transfers, of any two runs, that
    hand over the same buffer decode to the same report or raise the same
    exception. *)
Theorem C1_mismatched_report_rejected (tr : Transport) (n : nat) (buf : bytes) :
  receives tr n buf ->
  (byte_val (byte_at buf 0) <> CMD_STATUS_REPORT ->
   _get_status_report tr n = Raises invalid_report /\
   fetch_report tr n = Raises invalid_report /\
   get_height tr n = Raises invalid_report /\
   (forall target retry_count prev_height m b,
       _move tr target m = Returns b n ->
       move_body tr target retry_count prev_height m = Raises invalid_report) /\
   (exists r, StatusReport.from_buf buf = Ok r /\
              populated r /\
              StatusReport.featureRaportID r = byte_val (byte_at buf 0))) /\
  (forall tr' n',
      receives tr' n' buf ->
      (forall r, fetch_report tr n = Returns r (S n)
                 <-> fetch_report tr' n' = Returns r (S n')) /\
      (forall e, fetch_report tr n = Raises e <-> fetch_report tr' n' = Raises e)).
Proof.
  intros Hr. split.
  - intro H0. pose proof (fetch_report_rejects Hr H0) as Hf.
    split; [apply (get_status_report_rejects Hr H0)|].
    split; [exact Hf|].
    split; [now rewrite get_height_fetch, Hf|].
    split.
    + intros target rc ph m b Hm. now rewrite move_body_fetch, Hm, Hf.
    + destruct Hr as (_ & _ & _ & _ & Hlen).
      exists (report_of_bytes buf).
      split; [now apply from_buf_report_of_bytes|].
      split; [apply decoded_report_populated|reflexivity].
  - intros tr' n' Hr'.
    destruct (Z.eq_dec (byte_val (byte_at buf 0)) CMD_STATUS_REPORT) as [H0|H0].
    + rewrite (fetch_report_accepts Hr H0), (fetch_report_accepts Hr' H0).
      split; [intro r|intro e]; split; intro E; try discriminate E;
        injection E as <-; reflexivity.
    + rewrite (fetch_report_rejects Hr H0), (fetch_report_rejects Hr' H0).
      split; [intro r|intro e]; split; intro E; try discriminate E; exact E.
Qed.

(** C1 as stated fails of the decoder: this 64-byte buffer starts with
    0xff, not with 4, and [StatusReport.from_buf] does not fail on it; it
    returns a report with every attribute assigned. *)
Lemma C1_decoder_accepts_mismatch :
  length (counting_buffer xff) = 64%nat /\
  byte_val (byte_at (counting_buffer xff) 0) <> CMD_STATUS_REPORT /\
  StatusReport.from_buf (counting_buffer xff)
  = Ok (report_of_bytes (counting_buffer xff)) /\
  populated (report_of_bytes (counting_buffer xff)) /\
  StatusReport.featureRaportID (report_of_bytes (counting_buffer xff)) = 255.
Proof.
  split; [reflexivity|]. split; [discriminate|].
  split; [now apply from_buf_report_of_bytes|].
  split; [apply decoded_report_populated|reflexivity].
Qed.

Lemma steady_receives (buf : bytes) (n : nat) :
  length buf = 64%nat -> receives (steady buf) n buf.
Proof.
  intro H. exists 64%nat, buf. repeat split; [|assumption].
  unfold slice_to. rewrite <- H. apply firstn_all.
Qed.

Lemma steady_completes (buf : bytes) (n : nat) : completes (steady buf) n.
Proof. exists 64%nat, buf. reflexivity. Qed.

Lemma C1_mismatched_report_rejected_witness :
  _get_status_report (steady (status_buffer x05 x24 x13 x00 x00)) 0%nat
  = Raises invalid_report /\
  get_height (steady (status_buffer x05 x24 x13 x00 x00)) 0%nat
  = Raises invalid_report.
Proof.
  destruct (C1_mismatched_report_rejected
              (steady_receives (status_buffer x05 x24 x13 x00 x00) 0%nat eq_refl))
    as [Hrej _].
  destruct Hrej as (H1 & _ & H3 & _); [discriminate|].
  split; assumption.
Defined.

(** C8: [get_height] performs one status fetch, decodes it and returns the
    raw position of [ref1] paired with that position divided by 98.0; when
    the decoded [ref1.pos] is 4900 the result is (4900, 50.0). *)
Theorem C8_get_height (tr : Transport) (n : nat) (buf : bytes)
        (r : StatusReport.t) (pos : Z) :
  receives tr n buf ->
  byte_val (byte_at buf 0) = CMD_STATUS_REPORT ->
  StatusReport.from_buf buf = Ok r ->
  ref1_pos r = Ok pos ->
  get_height tr n
  = Returns (pos, PrimFloat.div (float_of_int pos) 98%float) (S n) /\
  (pos = 4900 -> get_height tr n = Returns (4900, 50%float) (S n)).
Proof.
  intros Hr H0 Hd Hp.
  assert (E : get_height tr n
              = Returns (pos, PrimFloat.div (float_of_int pos) 98%float) (S n)).
  { rewrite get_height_fetch, (fetch_report_accepts Hr H0).
    destruct Hr as (_ & _ & _ & _ & Hlen).
    rewrite from_buf_report_of_bytes in Hd by assumption.
    injection Hd as <-. now rewrite Hp. }
  split; [exact E|].
  intros ->. exact E.
Qed.

Lemma C8_get_height_witness :
  get_height (steady (status_buffer x04 x24 x13 x00 x00)) 0%nat
  = Returns (4900, 50%float) 1%nat.
Proof.
  destruct (@C8_get_height (steady (status_buffer x04 x24 x13 x00 x00)) 0%nat
              (status_buffer x04 x24 x13 x00 x00)
              (report_of_bytes (status_buffer x04 x24 x13 x00 x00)) 4900
              (steady_receives (status_buffer x04 x24 x13 x00 x00) 0%nat eq_refl)
              eq_refl
              (from_buf_report_of_bytes (status_buffer x04 x24 x13 x00 x00) eq_refl)
              eq_refl) as [_ H].
  apply H. reflexivity.
Defined.

(** ** Decoded positions are 16-bit *)

Lemma hexval_range (c : ascii) (d : Z) : hexval c = Some d -> 0 <= d < 16.
Proof.
  unfold hexval. intro H.
  repeat match type of H with
    | (if ?b then _ else _) = _ => destruct b eqn:?
    end; try discriminate; injection H as <-; lia.
Qed.

Lemma int16_digits_bound (s : pystr) :
  forall acc v, 0 <= acc -> int16_digits acc s = Ok v ->
                0 <= v < (acc + 1) * 16 ^ Z.of_nat (length s).
Proof.
  induction s as [|c s IH]; intros acc v Hacc H; cbn [int16_digits] in H.
  - injection H as <-. cbn. lia.
  - destruct (hexval c) as [d|] eqn:Hd; [|discriminate].
    apply hexval_range in Hd. apply IH in H; [|lia].
    cbn [length]. rewrite Nat2Z.inj_succ, Z.pow_succ_r by lia.
    assert (0 < 16 ^ Z.of_nat (length s)) by (apply Z.pow_pos_nonneg; lia).
    nia.
Qed.

Lemma hex_no_sign (buf : bytes) (c : ascii) : In c (hex buf) -> is_sign c = false.
Proof.
  induction buf as [|b buf IH]; [intros []|].
  cbn [hex flat_map hex_byte app In]. fold (hex buf).
  intros [<-|[<-|H]]; [apply high_digit_not_sign| |now apply IH].
  destruct b; vm_compute; reflexivity.
Qed.

Lemma in_firstn {A} (n : nat) (l : list A) (x : A) : In x (firstn n l) -> In x l.
Proof.
  revert l. induction n as [|n IH]; intros [|y l] H; cbn in H; try contradiction.
  destruct H as [->|H]; [now left|right; now apply IH].
Qed.

Lemma in_skipn {A} (n : nat) (l : list A) (x : A) : In x (skipn n l) -> In x l.
Proof.
  revert l. induction n as [|n IH]; intros [|y l] H; cbn in H; try assumption.
  right. now apply IH.
Qed.

Lemma in_slice {A} (a b : nat) (l : list A) (x : A) : In x (slice a b l) -> In x l.
Proof. intro H. unfold slice in H. eapply in_skipn, in_firstn, H. Qed.

(** The position of a sample decoded from digits of a buffer fits 16 bits. *)
Lemma sample_pos_range (buf : bytes) (a b : nat) (s : StatusPositionSpeed.t) (p : Z) :
  StatusPositionSpeed.from_buf (slice a b (hex buf)) = Ok s ->
  StatusPositionSpeed.pos s = Some p ->
  0 <= p < 65536.
Proof.
  unfold StatusPositionSpeed.from_buf. set (x := slice a b (hex buf)).
  destruct (int16 (slice 2 4 x ++ slice_to 2 x)) as [v|e] eqn:Hv; [|discriminate].
  cbn [bind].
  destruct (Status.from_buf (slice 4 6 x)) as [st|e]; [|discriminate]. cbn [bind].
  destruct (int16 (slice 6 8 x)) as [sp|e]; [|discriminate]. cbn [bind].
  intros E Hp. injection E as <-. cbn in Hp. injection Hp as <-.
  assert (Hlen : (length (slice 2 4 x ++ slice_to 2 x) <= 4)%nat).
  { rewrite length_app. unfold slice, slice_to.
    rewrite !length_firstn. lia. }
  assert (Hsign : forall c, In c (slice 2 4 x ++ slice_to 2 x) -> is_sign c = false).
  { intros c Hc. apply hex_no_sign with buf. apply in_app_or in Hc.
    destruct Hc as [Hc|Hc].
    - apply in_slice in Hc. now apply in_slice in Hc.
    - apply in_firstn in Hc. now apply in_slice in Hc. }
  destruct (slice 2 4 x ++ slice_to 2 x) as [|c t] eqn:Hs; [discriminate|].
  unfold int16 in Hv. rewrite (Hsign c) in Hv by now left.
  apply int16_digits_bound in Hv; [|lia].
  assert (16 ^ Z.of_nat (length (c :: t)) <= 16 ^ 4)
    by (apply Z.pow_le_mono_r; lia).
  change (16 ^ 4) with 65536 in *. lia.
Qed.

Ltac case_bind H :=
  match type of H with
  | bind ?c _ = _ => destruct c eqn:?; cbn [bind] in H; [|discriminate H]
  end.

Lemma from_buf_ref1 (buf : bytes) (r : StatusReport.t) :
  StatusReport.from_buf buf = Ok r ->
  exists s, StatusPositionSpeed.from_buf (slice 8 (8 + 8) (hex buf)) = Ok s
            /\ StatusReport.ref1 r = Some s.
Proof.
  intro H. unfold StatusReport.from_buf in H. cbv zeta in H.
  do 3 case_bind H.
  destruct (StatusPositionSpeed.from_buf (slice 8 (8 + 8) (hex buf))) as [s|e];
    cbn [bind] in H; [|discriminate H].
  exists s. split; [reflexivity|].
  repeat case_bind H. injection H as <-. reflexivity.
Qed.

Lemma ref1_pos_range (buf : bytes) (r : StatusReport.t) (p : Z) :
  StatusReport.from_buf buf = Ok r -> ref1_pos r = Ok p -> 0 <= p < 65536.
Proof.
  intros H Hp. destruct (from_buf_ref1 _ H) as (s & Hs & Hr).
  unfold ref1_pos in Hp. rewrite Hr in Hp.
  destruct (StatusPositionSpeed.pos s) as [q|] eqn:Hq; [|discriminate].
  injection Hp as <-. eapply sample_pos_range; eassumption.
Qed.

Lemma fetch_report_decoded (tr : Transport) (n n' : nat) (r : StatusReport.t) :
  fetch_report tr n = Returns r n' ->
  exists buf, StatusReport.from_buf buf = Ok r.
Proof.
  unfold fetch_report, bindM, lift.
  destruct (_get_status_report tr n) as [buf m|e|]; try discriminate.
  destruct (StatusReport.from_buf buf) as [r'|e] eqn:E; [|discriminate].
  intro H. injection H as <- _. now exists buf.
Qed.

(** ** The loop of [move] *)

Lemma move_loop_unfold (tr : Transport) (fuel : nat)
      (target retry_count prev_height : Z) (n : nat) :
  move_loop tr (S fuel) target retry_count prev_height n =
  match move_body tr target retry_count prev_height n with
  | Returns (Break r) n' => Returns r n'
  | Returns (Continue retry_count' prev_height') n' =>
      move_loop tr fuel target retry_count' prev_height' n'
  | Raises e => Raises e
  | Unfinished => Unfinished
  end.
Proof.
  cbn [move_loop]. unfold bindM.
  destruct (move_body tr target retry_count prev_height n) as [[r|rc ph] n'|e|];
    reflexivity.
Qed.

Lemma move_unfold_loop (tr : Transport) (fuel : nat) (target : Z) (n : nat) :
  move tr fuel target n =
  match move_loop tr fuel target max_retry 0 n with
  | Returns r n' =>
      match ref1_pos r with
      | Ok pos => Returns (Z.abs (pos - target) <=? epsilon) n'
      | Raise e => Raises e
      end
  | Raises e => Raises e
  | Unfinished => Unfinished
  end.
Proof.
  unfold move, bindM, lift, ret.
  destruct (move_loop tr fuel target max_retry 0 n) as [r n'|e|]; try reflexivity.
  destruct (ref1_pos r); reflexivity.
Qed.

(** The fetch depends on the transport through the transfer it makes only. *)
Lemma fetch_report_ext (tr tr' : Transport) (n : nat) :
  tr n = tr' n -> fetch_report tr n = fetch_report tr' n.
Proof.
  intro E. unfold fetch_report, bindM.
  now rewrite !get_status_report_unfold, E.
Qed.

Section PollsAtTarget.

Variables (tr : Transport) (n0 : nat) (target : Z).

Hypothesis commands : forall k, completes tr (n0 + 2 * k)%nat.
Hypothesis polls :
  forall k, exists r,
    fetch_report tr (n0 + 2 * k + 1)%nat = Returns r (n0 + 2 * k + 2)%nat
    /\ ref1_pos r = Ok target.

(** A height that a poll reports is one [_move] can send. *)
Lemma target_range : 0 <= target < 65536.
Proof.
  destruct (polls 0) as (r & Hf & Hp).
  destruct (fetch_report_decoded _ _ Hf) as [buf Hbuf].
  exact (ref1_pos_range _ Hbuf Hp).
Qed.

Lemma body_at_target (k : nat) (retry_count prev_height : Z) :
  exists r,
    fetch_report tr (n0 + 2 * k + 1)%nat = Returns r (n0 + 2 * k + 2)%nat /\
    ref1_pos r = Ok target /\
    move_body tr target retry_count prev_height (n0 + 2 * k)%nat
    = Returns (next_ctl r target retry_count prev_height) (n0 + 2 * (k + 1))%nat.
Proof.
  destruct (polls k) as (r & Hf & Hp). exists r.
  split; [assumption|]. split; [assumption|].
  replace (n0 + 2 * (k + 1))%nat with (S (S (n0 + 2 * k)%nat)) by lia.
  apply move_body_step; try assumption; [apply target_range|apply commands|].
  replace (S (n0 + 2 * k)%nat) with (n0 + 2 * k + 1)%nat by lia.
  replace (S (n0 + 2 * k + 1)%nat) with (n0 + 2 * k + 2)%nat by lia.
  exact Hf.
Qed.

Lemma settled_at_rest (r : StatusReport.t) : settled r target target = true.
Proof.
  unfold settled, epsilon. rewrite Z.sub_diag. cbn [Z.abs].
  apply orb_true_iff. left. apply orb_true_iff. right. reflexivity.
Qed.

(** Once the previous height is the target, each poll uses up one retry:
    with [j] retries left the loop breaks after exactly [j] iterations. *)
Lemma countdown (j : nat) :
  forall k, exists r,
    ref1_pos r = Ok target /\
    forall fuel,
      ((S j <= fuel)%nat ->
       move_loop tr fuel target (Z.of_nat (S j)) target (n0 + 2 * k)%nat
       = Returns r (n0 + 2 * (k + S j))%nat) /\
      ((fuel < S j)%nat ->
       move_loop tr fuel target (Z.of_nat (S j)) target (n0 + 2 * k)%nat
       = Unfinished).
Proof.
  induction j as [|j IH]; intro k.
  - destruct (body_at_target k (Z.of_nat 1) target) as (r & _ & Hp & Hb).
    exists r. split; [assumption|]. intro fuel. split; intro Hfuel.
    + destruct fuel as [|fuel]; [lia|].
      rewrite move_loop_unfold, Hb. unfold next_ctl.
      rewrite settled_at_rest. reflexivity.
    + destruct fuel as [|fuel]; [reflexivity|lia].
  - destruct (body_at_target k (Z.of_nat (S (S j))) target) as (r0 & _ & Hp0 & Hb).
    destruct (IH (k + 1)%nat) as (r & Hp & Hloop).
    exists r. split; [assumption|]. intro fuel.
    assert (Hnext : next_ctl r0 target (Z.of_nat (S (S j))) target
                    = Continue (Z.of_nat (S j)) target).
    { unfold next_ctl. rewrite settled_at_rest.
      replace (Z.of_nat (S (S j)) - 1) with (Z.of_nat (S j)) by lia.
      destruct (Z.of_nat (S j) =? 0) eqn:E; [|reflexivity].
      apply Z.eqb_eq in E. lia. }
    split; intro Hfuel.
    + destruct fuel as [|fuel]; [lia|].
      rewrite move_loop_unfold, Hb, Hnext.
      replace (n0 + 2 * (k + S (S j)))%nat with (n0 + 2 * (k + 1 + S j))%nat by lia.
      apply Hloop. lia.
    + destruct fuel as [|fuel]; [reflexivity|].
      rewrite move_loop_unfold, Hb, Hnext. apply Hloop. lia.
Qed.

(** The loop breaks after three iterations when the first poll counts as
    settled, and after four when it does not. *)
Lemma move_at_target :
  exists r0,
    fetch_report tr (n0 + 1)%nat = Returns r0 (n0 + 2)%nat /\
    let iters := if settled r0 target 0 then 3%nat else 4%nat in
    (forall fuel, (iters <= fuel)%nat ->
                  move tr fuel target n0 = Returns true (n0 + 2 * iters)%nat) /\
    (forall fuel, (fuel < iters)%nat -> move tr fuel target n0 = Unfinished).
Proof.
  destruct (body_at_target 0 max_retry 0) as (r0 & Hf0 & Hp0 & Hb).
  replace (n0 + 2 * 0)%nat with n0 in Hb, Hf0 by lia.
  change (n0 + 2 * (0 + 1))%nat with (n0 + 2 * 1)%nat in Hb.
  exists r0. split; [exact Hf0|].
  assert (Hfinal : forall r n, ref1_pos r = Ok target ->
            match ref1_pos r with
            | Ok pos => Returns (Z.abs (pos - target) <=? epsilon) n
            | Raise e => Raises e
            end = Returns true n).
  { intros r n ->. now rewrite Z.sub_diag. }
  unfold next_ctl in Hb. destruct (settled r0 target 0); cbv zeta.
  - (* the first poll already counts: two retries are left *)
    change (max_retry - 1 =? 0) with false in Hb. cbv iota in Hb.
    destruct (countdown 1 1) as (r & Hp & Hloop).
    split; intros fuel Hfuel;
      (destruct fuel as [|fuel]; [try lia; reflexivity|]);
      rewrite move_unfold_loop, move_loop_unfold, Hb;
      change (max_retry - 1) with (Z.of_nat 2).
    + rewrite (proj1 (Hloop fuel)) by lia. now apply Hfinal.
    + now rewrite (proj2 (Hloop fuel)) by lia.
  - (* the first poll resets the count: three retries are left *)
    change (max_retry =? 0) with false in Hb. cbv iota in Hb.
    destruct (countdown 2 1) as (r & Hp & Hloop).
    split; intros fuel Hfuel;
      (destruct fuel as [|fuel]; [try lia; reflexivity|]);
      rewrite move_unfold_loop, move_loop_unfold, Hb;
      change max_retry with (Z.of_nat 3).
    + rewrite (proj1 (Hloop fuel)) by lia. now apply Hfinal.
    + now rewrite (proj2 (Hloop fuel)) by lia.
Qed.

End PollsAtTarget.

(** C3, amended: when every status poll of [move(target)] reports
    [ref1.pos] equal to [target], the loop breaks within [max_retry + 1] = 4
    iterations and [move] returns [True].  It takes [max_retry] = 3
    iterations when the first poll counts as settled against the initial
    [prev_height = 0], and one more when it does not. *)
Theorem C3_move_at_target (tr : Transport) (n0 : nat) (target : Z) :
  (forall k, completes tr (n0 + 2 * k)%nat) ->
  (forall k, exists r,
      fetch_report tr (n0 + 2 * k + 1)%nat = Returns r (n0 + 2 * k + 2)%nat
      /\ ref1_pos r = Ok target) ->
  exists r0 iters,
    fetch_report tr (n0 + 1)%nat = Returns r0 (n0 + 2)%nat /\
    iters = (if settled r0 target 0 then Z.to_nat max_retry
             else Z.to_nat (max_retry + 1)) /\
    Z.of_nat iters <= max_retry + 1 /\
    (forall fuel, (iters <= fuel)%nat ->
                  move tr fuel target n0 = Returns true (n0 + 2 * iters)%nat) /\
    (forall fuel, (fuel < iters)%nat -> move tr fuel target n0 = Unfinished).
Proof.
  intros Hc Hp.
  destruct (@move_at_target tr n0 target Hc Hp) as (r0 & Hf & Hdone & Hrun).
  exists r0. eexists. split; [exact Hf|]. split; [reflexivity|].
  change (Z.to_nat max_retry) with 3%nat.
  change (Z.to_nat (max_retry + 1)) with 4%nat.
  split; [|split; assumption].
  unfold max_retry. destruct (settled r0 target 0); lia.
Qed.

Lemma resting_desk_polls (n : nat) :
  exists r, fetch_report resting_desk n = Returns r (S n) /\ ref1_pos r = Ok 4900.
Proof.
  eexists. split.
  - apply fetch_report_accepts; [apply steady_receives|]; reflexivity.
  - reflexivity.
Qed.

Lemma C3_move_at_target_witness :
  exists r0 iters,
    fetch_report resting_desk (0 + 1)%nat = Returns r0 (0 + 2)%nat /\
    iters = (if settled r0 4900 0 then Z.to_nat max_retry
             else Z.to_nat (max_retry + 1)) /\
    Z.of_nat iters <= max_retry + 1 /\
    (forall fuel, (iters <= fuel)%nat ->
                  move resting_desk fuel 4900 0%nat = Returns true (0 + 2 * iters)%nat) /\
    (forall fuel, (fuel < iters)%nat -> move resting_desk fuel 4900 0%nat = Unfinished).
Proof.
  apply (@C3_move_at_target resting_desk 0%nat 4900).
  - intro k. apply steady_completes.
  - intro k. replace (0 + 2 * k + 2)%nat with (S (0 + 2 * k + 1)) by lia.
    apply resting_desk_polls.
Defined.

(** C3 as stated fails: every poll of this run reports the target 4900, and
    after [max_retry] = 3 iterations the loop is still running; it breaks in
    the fourth. *)
Lemma C3_three_iterations_not_enough :
  (forall k, exists r,
      fetch_report resting_desk (0 + 2 * k + 1)%nat = Returns r (0 + 2 * k + 2)%nat
      /\ ref1_pos r = Ok 4900) /\
  move resting_desk (Z.to_nat max_retry) 4900 0%nat = Unfinished /\
  move resting_desk 4 4900 0%nat = Returns true 8%nat.
Proof.
  split; [|split].
  - intro k. replace (0 + 2 * k + 2)%nat with (S (0 + 2 * k + 1)) by lia.
    apply resting_desk_polls.
  - vm_compute. reflexivity.
  - vm_compute. reflexivity.
Qed.

(** *** Sustained movement *)

Lemma settled_false (r : StatusReport.t) (pos prev_height : Z) :
  epsilon < Z.abs (StatusReport.ref1cnt r - pos) ->
  epsilon < Z.abs (prev_height - pos) ->
  pos <> prev_height ->
  settled r pos prev_height = false.
Proof.
  intros H1 H2 H3. unfold settled.
  apply Z.leb_gt in H1. apply Z.leb_gt in H2. rewrite H1, H2.
  apply Z.eqb_neq. congruence.
Qed.

Lemma next_ctl_moving (r : StatusReport.t) (pos retry_count prev_height : Z) :
  settled r pos prev_height = false ->
  next_ctl r pos retry_count prev_height = Continue max_retry pos.
Proof.
  intro H. unfold next_ctl. now rewrite H.
Qed.

(** C4: an iteration of the loop of [move] whose poll fails the settled
    test (counter and position more than [epsilon] apart, position more than
    [epsilon] from the previous one and different from it) puts
    [retry_count] back to [max_retry], whatever it was, and the loop goes
    on.  Hence while the first [n] polls all show such movement, the loop is
    after [n] iterations where it started, with [retry_count = max_retry],
    and [move] has not returned. *)
Theorem C4_sustained_movement (tr : Transport) (n0 : nat) (target : Z)
        (n : nat) (p : nat -> Z) :
  0 <= target < 65536 ->
  (forall k, (k < n)%nat -> completes tr (n0 + 2 * k)%nat) ->
  (forall k, (k < n)%nat -> exists r,
      fetch_report tr (n0 + 2 * k + 1)%nat = Returns r (n0 + 2 * k + 2)%nat
      /\ ref1_pos r = Ok (p k)
      /\ epsilon < Z.abs (StatusReport.ref1cnt r - p k)
      /\ epsilon < Z.abs (prev_of p k - p k)
      /\ p k <> prev_of p k) ->
  (forall k retry_count, (k < n)%nat ->
      move_body tr target retry_count (prev_of p k) (n0 + 2 * k)%nat
      = Returns (Continue max_retry (p k)) (n0 + 2 * k + 2)%nat) /\
  (forall fuel,
      move_loop tr (n + fuel) target max_retry 0 n0
      = move_loop tr fuel target max_retry (prev_of p n) (n0 + 2 * n)%nat) /\
  move tr n target n0 = Unfinished.
Proof.
  intros Ht Hc Hp.
  assert (Hbody : forall k retry_count, (k < n)%nat ->
            move_body tr target retry_count (prev_of p k) (n0 + 2 * k)%nat
            = Returns (Continue max_retry (p k)) (n0 + 2 * k + 2)%nat).
  { intros k rc Hk. destruct (Hp k Hk) as (r & Hf & Hpos & H1 & H2 & H3).
    replace (n0 + 2 * k + 2)%nat with (S (S (n0 + 2 * k)%nat)) in * by lia.
    replace (n0 + 2 * k + 1)%nat with (S (n0 + 2 * k)%nat) in * by lia.
    rewrite (@move_body_step tr target rc (prev_of p k) _ r (p k) Ht (Hc k Hk) Hf Hpos).
    now rewrite next_ctl_moving by (now apply settled_false). }
  assert (Hloop : forall m, (m <= n)%nat -> forall fuel,
            move_loop tr (m + fuel) target max_retry 0 n0
            = move_loop tr fuel target max_retry (prev_of p m) (n0 + 2 * m)%nat).
  { induction m as [|m IH]; intros Hm fuel.
    - cbn [Nat.add prev_of]. f_equal. lia.
    - replace (S m + fuel)%nat with (m + S fuel)%nat by lia.
      rewrite IH by lia.
      rewrite move_loop_unfold.
      rewrite (Hbody m max_retry) by lia.
      cbn [prev_of]. f_equal. lia. }
  split; [exact Hbody|]. split; [now apply Hloop|].
  rewrite move_unfold_loop.
  replace n with (n + 0)%nat at 1 by lia.
  now rewrite Hloop.
Qed.

Lemma C4_sustained_movement_witness :
  (forall fuel,
      move_loop moving_desk (4 + fuel) 1500 max_retry 0 0%nat
      = move_loop moving_desk fuel 1500 max_retry 2000 8%nat) /\
  move moving_desk 4 1500 0%nat = Unfinished.
Proof.
  destruct (@C4_sustained_movement moving_desk 0%nat 1500 4%nat
              (fun k => if Nat.even k then 1000 else 2000)) as (_ & Hloop & Hmove).
  - lia.
  - intros k Hk. unfold completes, moving_desk.
    destruct (Nat.even _); eexists; eexists; reflexivity.
  - intros k Hk.
    do 4 (destruct k as [|k];
          [eexists; split; [vm_compute; reflexivity|];
           repeat split; vm_compute; congruence|]).
    lia.
  - split; assumption.
Defined.

(** *** The result of the move command *)

(** C10: the loop of [move] never looks at what [_move] returns.  Two runs
    whose command transfers all complete, with whatever counts, and whose
    polls decode alike (or fail alike) go through the same iterations: for
    every number of iterations allowed, [move] ends the same way in both,
    with the same result after the same number of transfers. *)
Theorem C10_move_result_discarded (tr1 tr2 : Transport) (n0 : nat) (target : Z) :
  (forall k, completes tr1 (n0 + 2 * k)%nat) ->
  (forall k, completes tr2 (n0 + 2 * k)%nat) ->
  (forall k, fetch_report tr1 (n0 + 2 * k + 1)%nat
             = fetch_report tr2 (n0 + 2 * k + 1)%nat) ->
  forall fuel, move tr1 fuel target n0 = move tr2 fuel target n0.
Proof.
  intros Hc1 Hc2 Hf fuel.
  assert (Hbody : forall k retry_count prev_height,
            move_body tr1 target retry_count prev_height (n0 + 2 * k)%nat
            = move_body tr2 target retry_count prev_height (n0 + 2 * k)%nat
            /\ forall ctl n', move_body tr1 target retry_count prev_height
                                (n0 + 2 * k)%nat = Returns ctl n' ->
                              n' = (n0 + 2 * (k + 1))%nat).
  { intros k rc ph. rewrite !move_body_fetch, !move_unfold.
    destruct (Hc1 k) as (a1 & d1 & E1). destruct (Hc2 k) as (a2 & d2 & E2).
    rewrite E1, E2.
    destruct (move_command target) as [cmd|e]; [|split; [reflexivity|discriminate]].
    replace (S (n0 + 2 * k)) with (n0 + 2 * k + 1)%nat by lia.
    rewrite <- Hf. split; [reflexivity|].
    intros ctl n'. unfold fetch_report, bindM.
    rewrite get_status_report_unfold.
    destruct (tr1 (n0 + 2 * k + 1)%nat) as [t data|]; [|discriminate].
    destruct (getbyte (slice_to t data) 0) as [b0|e]; [|discriminate].
    destruct (negb (b0 =? CMD_STATUS_REPORT)); [discriminate|].
    unfold lift.
    destruct (StatusReport.from_buf (slice_to t data)) as [r|e]; [|discriminate].
    destruct (ref1_pos r) as [pos|e]; [|discriminate].
    intro E. injection E as _ <-. lia. }
  assert (Hloop : forall fuel k retry_count prev_height,
            move_loop tr1 fuel target retry_count prev_height (n0 + 2 * k)%nat
            = move_loop tr2 fuel target retry_count prev_height (n0 + 2 * k)%nat).
  { clear fuel. induction fuel as [|fuel IH]; intros k rc ph; [reflexivity|].
    rewrite !move_loop_unfold.
    destruct (Hbody k rc ph) as [<- Hn].
    destruct (move_body tr1 target rc ph (n0 + 2 * k)%nat)
      as [[r|rc' ph'] n'|e|] eqn:E; try reflexivity.
    rewrite (Hn _ _ eq_refl). apply IH. }
  rewrite !move_unfold_loop.
  pose proof (Hloop fuel 0%nat max_retry 0) as E.
  replace (n0 + 2 * 0)%nat with n0 in E by lia.
  now rewrite E.
Qed.

Lemma even_double (k : nat) : Nat.even (2 * k) = true.
Proof. rewrite Nat.even_mul. reflexivity. Qed.

Lemma even_succ_double (k : nat) : Nat.even (2 * k + 1) = false.
Proof. rewrite Nat.even_add, even_double. reflexivity. Qed.

Lemma C10_move_result_discarded_witness :
  move resting_desk 4 4900 0%nat = move deaf_desk 4 4900 0%nat /\
  move deaf_desk 4 4900 0%nat = Returns true 8%nat.
Proof.
  assert (H : forall fuel,
             move resting_desk fuel 4900 0%nat = move deaf_desk fuel 4900 0%nat).
  { apply (@C10_move_result_discarded resting_desk deaf_desk 0%nat 4900).
    - intro k. apply steady_completes.
    - intro k. unfold completes, deaf_desk.
      destruct (Nat.even _); eexists; eexists; reflexivity.
    - intro k. apply fetch_report_ext.
      unfold resting_desk, steady, deaf_desk. cbn [Nat.add].
      now rewrite even_succ_double. }
  split; [apply H|].
  rewrite <- H. vm_compute. reflexivity.
Defined.

(** ** The decoder on a report *)

Lemma sample_at_populated (buf : bytes) (i : nat) :
  sample_populated (Some (sample_at buf i)).
Proof. do 3 eexists. reflexivity. Qed.

(** C9: [StatusReport.from_buf] returns on every 64-byte buffer, whatever
    its byte 0 and every other byte: no slice is out of range and no text
    handed to [int] fails to parse.  The report has every attribute
    assigned, its first two attributes are bytes 0 and 1 as they are, and
    every status byte decodes into its four flags (bits 7 to 4) and its low
    nibble. *)
Theorem C9_from_buf_total (buf : bytes) :
  length buf = 64%nat ->
  exists r,
    StatusReport.from_buf buf = Ok r /\
    populated r /\
    StatusReport.featureRaportID r = byte_val (byte_at buf 0) /\
    StatusReport.numberOfBytes r = byte_val (byte_at buf 1) /\
    forall b : byte,
      Status.from_buf (hex [b])
      = Ok (Status.mk (Z.testbit (byte_val b) 7) (Z.testbit (byte_val b) 6)
                      (Z.testbit (byte_val b) 5) (Z.testbit (byte_val b) 4)
                      (byte_val b mod 16)).
Proof.
  intro H. exists (report_of_bytes buf).
  split; [now apply from_buf_report_of_bytes|].
  split; [|split; [reflexivity|split; [reflexivity|apply Status_from_buf_hex]]].
  unfold populated, report_of_bytes; cbn.
  repeat split; try discriminate; apply sample_at_populated.
Qed.

Lemma C9_from_buf_total_witness :
  exists r,
    StatusReport.from_buf (counting_buffer xff) = Ok r /\
    populated r /\
    StatusReport.featureRaportID r = 255.
Proof.
  destruct (C9_from_buf_total (counting_buffer xff) eq_refl)
    as (r & Hr & Hp & H0 & _).
  exists r. repeat split; try apply Hp; assumption.
Defined.

(** C5: every 16-bit field that is decoded from two bytes of the buffer, the
    position of the eight samples and the four counters, is the base-16
    value of the digits of the second byte followed by those of the first.
    The samples [ref6] to [ref8] are the ones [from_buf] slices, from bytes
    45, 49 and 53.  The digits "3412" give 0x1234. *)
Theorem C5_byte_swap (buf : bytes) :
  length buf = 64%nat ->
  let swapped (first second : nat) :=
    int16 (hex [byte_at buf second] ++ hex [byte_at buf first]) in
  let pos_of (ref : option StatusPositionSpeed.t) :=
    match ref with
    | Some s => match StatusPositionSpeed.pos s with
                | Some p => Ok p
                | None => Raise TypeError
                end
    | None => Raise AttributeError
    end in
  (exists r,
      StatusReport.from_buf buf = Ok r /\
      pos_of (StatusReport.ref1 r) = swapped 4%nat 5%nat /\
      pos_of (StatusReport.ref2 r) = swapped 8%nat 9%nat /\
      pos_of (StatusReport.ref3 r) = swapped 12%nat 13%nat /\
      pos_of (StatusReport.ref4 r) = swapped 16%nat 17%nat /\
      Ok (StatusReport.ref1cnt r) = swapped 20%nat 21%nat /\
      Ok (StatusReport.ref2cnt r) = swapped 22%nat 23%nat /\
      Ok (StatusReport.ref3cnt r) = swapped 24%nat 25%nat /\
      Ok (StatusReport.ref4cnt r) = swapped 26%nat 27%nat /\
      pos_of (StatusReport.ref5 r) = swapped 28%nat 29%nat /\
      pos_of (StatusReport.ref6 r) = swapped 45%nat 46%nat /\
      pos_of (StatusReport.ref7 r) = swapped 49%nat 50%nat /\
      pos_of (StatusReport.ref8 r) = swapped 53%nat 54%nat) /\
  (forall first second,
      int16 (hex [second] ++ hex [first]) = Ok (256 * byte_val second + byte_val first)) /\
  (forall first second st sp,
      exists s,
        StatusPositionSpeed.from_buf (hex [first; second; st; sp]) = Ok s /\
        pos_of (Some s) = int16 (hex [second] ++ hex [first])) /\
  hex [x34; x12] = str "3412" /\
  int16 (slice 2 4 (str "3412") ++ slice_to 2 (str "3412")) = Ok 0x1234.
Proof.
  intros H swapped pos_of. subst swapped pos_of. cbv beta.
  split; [|split; [|split; [|split]]].
  - exists (report_of_bytes buf).
    split; [now apply from_buf_report_of_bytes|].
    rewrite !int16_hex_swapped. repeat split.
  - intros first second. apply int16_hex_swapped.
  - intros first second st sp. eexists.
    split; [apply StatusPositionSpeed_from_buf_hex|].
    now rewrite int16_hex_swapped.
  - reflexivity.
  - reflexivity.
Qed.

Lemma C5_byte_swap_witness :
  exists r,
    StatusReport.from_buf (counting_buffer x04) = Ok r /\
    StatusReport.ref1cnt r = 0x1514 /\
    StatusReport.ref4 r = Some (sample_of_bytes x10 x11 x12 x13).
Proof.
  destruct (C5_byte_swap (counting_buffer x04) eq_refl)
    as ((r & Hr & _) & _).
  exists r. split; [exact Hr|].
  rewrite from_buf_report_of_bytes in Hr by reflexivity.
  injection Hr as <-. split; reflexivity.
Defined.

(** C7: [ValidFlags.from_buf] reads the 16-bit word most significant bit
    first: the flag [attr] lists at place [i] is bit [15 - i] of the word.
    The word 0x8000 sets [ID00_Ref1_pos_stat_speed] alone, the word 0x0000
    sets no flag. *)
Theorem C7_valid_flags_msb_first :
  (forall a b : byte,
      let w := 256 * byte_val a + byte_val b in
      ValidFlags.from_buf (hex [a; b])
      = Ok (ValidFlags.mk
              (Z.testbit w 15) (Z.testbit w 14) (Z.testbit w 13) (Z.testbit w 12)
              (Z.testbit w 11) (Z.testbit w 10) (Z.testbit w 9) (Z.testbit w 8)
              (Z.testbit w 7) (Z.testbit w 6) (Z.testbit w 5) (Z.testbit w 4)
              (Z.testbit w 3) (Z.testbit w 2) (Z.testbit w 1) (Z.testbit w 0))) /\
  ValidFlags.attr
  = [ValidFlags.N_ID00_Ref1_pos_stat_speed; ValidFlags.N_ID01_Ref2_pos_stat_speed;
     ValidFlags.N_ID02_Ref3_pos_stat_speed; ValidFlags.N_ID03_Ref4_pos_stat_speed;
     ValidFlags.N_ID10_Ref1_controlInput; ValidFlags.N_ID11_Ref2_controlInput;
     ValidFlags.N_ID12_Ref3_controlInput; ValidFlags.N_ID13_Ref4_controlInput;
     ValidFlags.N_ID04_Ref5_pos_stat_speed; ValidFlags.N_ID28_Diagnostic;
     ValidFlags.N_ID05_Ref6_pos_stat_speed; ValidFlags.N_ID37_Handset1command;
     ValidFlags.N_ID38_Handset2command; ValidFlags.N_ID06_Ref7_pos_stat_speed;
     ValidFlags.N_ID07_Ref8_pos_stat_speed; ValidFlags.N_unknown] /\
  ValidFlags.from_buf (str "8000")
  = Ok (ValidFlags.mk true false false false false false false false
                      false false false false false false false false) /\
  ValidFlags.from_buf (str "0000")
  = Ok (ValidFlags.mk false false false false false false false false
                      false false false false false false false false).
Proof.
  split; [|split; [|split]]; try reflexivity.
  intros a b w. apply ValidFlags_from_buf_hex.
Qed.

(** C2: on the buffer whose byte [i] is [i] (after the report id),
    [handset2] is read from bytes 43 and 44, not from bytes 44 and 45: its
    low byte is the high byte of [handset1].  The samples [ref6], [ref7] and
    [ref8] follow from bytes 45, 49 and 53, one byte before the offsets 46,
    50 and 54 of the layout; [undefined2] is the seven bytes from 57. *)
Theorem C2_handset2_offset :
  exists r,
    StatusReport.from_buf (counting_buffer x04) = Ok r /\
    StatusReport.diagnostic r = Some (hex (slice 32 40 (counting_buffer x04))) /\
    StatusReport.undefined1 r = Some (hex (slice 40 42 (counting_buffer x04))) /\
    StatusReport.handset1 r = 0x2b2a /\
    StatusReport.handset2 r = 0x2c2b /\
    StatusReport.handset2 r <> 0x2d2c /\
    StatusReport.ref6 r = Some (sample_of_bytes x2d x2e x2f x30) /\
    StatusReport.ref6 r <> Some (sample_of_bytes x2e x2f x30 x31) /\
    StatusReport.ref7 r = Some (sample_of_bytes x31 x32 x33 x34) /\
    StatusReport.ref8 r = Some (sample_of_bytes x35 x36 x37 x38) /\
    StatusReport.undefined2 r = Some (hex (slice_from 57 (counting_buffer x04))).
Proof.
  exists (report_of_bytes (counting_buffer x04)).
  split; [now apply from_buf_report_of_bytes|].
  repeat split; try reflexivity; vm_compute; discriminate.
Qed.

(** * Further properties *)

(** ** Buffers of other lengths *)

(** The closed form of [from_buf] holds of every buffer of 57 bytes or
    more: what follows byte 56 goes to [undefined2]. *)
Lemma from_buf_long (buf : bytes) :
  (57 <= length buf)%nat ->
  StatusReport.from_buf buf = Ok (report_of_bytes buf).
Proof.
  intro H.
  do 57 (destruct buf as [|? buf]; [cbn [length] in H; lia|]).
  unfold StatusReport.from_buf. cbn [Nat.add]. byte_slices.
  rewrite ValidFlags_from_buf_hex, !StatusPositionSpeed_from_buf_hex,
    !int16_hex_swapped.
  reflexivity.
Qed.

Lemma hex_length (buf : bytes) : length (hex buf) = (2 * length buf)%nat.
Proof.
  induction buf as [|b buf IH]; [reflexivity|].
  cbn [hex flat_map hex_byte app length]. fold (hex buf). rewrite IH. lia.
Qed.

Lemma slice_length {A} (a b : nat) (l : list A) :
  length (slice a b l) = Nat.min (b - a) (length l - a).
Proof. unfold slice. now rewrite length_firstn, length_skipn. Qed.

(** A sample needs its speed digits: at least seven characters. *)
Lemma sample_needs_digits (x : pystr) (s : StatusPositionSpeed.t) :
  StatusPositionSpeed.from_buf x = Ok s -> (7 <= length x)%nat.
Proof.
  unfold StatusPositionSpeed.from_buf.
  destruct (int16 (slice 2 4 x ++ slice_to 2 x)); [|discriminate]. cbn [bind].
  destruct (Status.from_buf (slice 4 6 x)); [|discriminate]. cbn [bind].
  destruct (int16 (slice 6 8 x)) as [sp|e] eqn:E; [|discriminate].
  intros _.
  assert (length (slice 6 8 x) <> 0%nat) as Hne.
  { destruct (slice 6 8 x); [discriminate E|discriminate]. }
  rewrite slice_length in Hne. lia.
Qed.

Lemma from_buf_needs_57 (buf : bytes) (r : StatusReport.t) :
  StatusReport.from_buf buf = Ok r -> (57 <= length buf)%nat.
Proof.
  intro H. unfold StatusReport.from_buf in H. cbv zeta in H.
  repeat case_bind H.
  match goal with
  | E : StatusPositionSpeed.from_buf (slice 106 _ _) = Ok _ |- _ =>
      apply sample_needs_digits in E; rewrite slice_length, hex_length in E
  end.
  lia.
Qed.

(** X1: [StatusReport.from_buf] returns a report exactly on the buffers of
    at least 57 bytes; on every shorter one it raises.  A buffer shorter
    than two bytes raises [IndexError]. *)
Theorem X1_from_buf_returns_iff_57_bytes (buf : bytes) :
  ((exists r, StatusReport.from_buf buf = Ok r) <-> (57 <= length buf)%nat) /\
  ((length buf < 57)%nat -> exists e, StatusReport.from_buf buf = Raise e) /\
  ((length buf < 2)%nat -> StatusReport.from_buf buf = Raise IndexError).
Proof.
  split; [|split].
  - split.
    + intros [r H]. exact (from_buf_needs_57 _ H).
    + intro H. eexists. now apply from_buf_long.
  - intro H. destruct (StatusReport.from_buf buf) as [r|e] eqn:E.
    + apply from_buf_needs_57 in E. lia.
    + now exists e.
  - intro H. destruct buf as [|b [|b' buf]]; [reflexivity|reflexivity|].
    cbn [length] in H. lia.
Qed.

(** ** Decoding loses nothing *)

Lemma byte_val_inj (a b : byte) : byte_val a = byte_val b -> a = b.
Proof.
  unfold byte_val. intro H. apply N2Z.inj in H.
  pose proof (Byte.of_to_N a) as Ha. rewrite H, Byte.of_to_N in Ha.
  now injection Ha.
Qed.

Lemma word_inj (lo hi lo' hi' : byte) :
  256 * byte_val hi + byte_val lo = 256 * byte_val hi' + byte_val lo' ->
  lo = lo' /\ hi = hi'.
Proof.
  intro H.
  pose proof (byte_val_range lo). pose proof (byte_val_range hi).
  pose proof (byte_val_range lo'). pose proof (byte_val_range hi').
  split; apply byte_val_inj; lia.
Qed.

(** A status byte is its four flags and its low nibble. *)
Lemma status_byte_rebuilt (b : byte) :
  byte_val b
  = 128 * Z.b2z (Status.positionLost (status_of_byte b))
    + 64 * Z.b2z (Status.antiColision (status_of_byte b))
    + 32 * Z.b2z (Status.overloadDown (status_of_byte b))
    + 16 * Z.b2z (Status.overloadUp (status_of_byte b))
    + Status.unknown (status_of_byte b).
Proof. destruct b; reflexivity. Qed.

Lemma status_of_byte_inj (a b : byte) :
  status_of_byte a = status_of_byte b -> a = b.
Proof.
  intro H. apply byte_val_inj.
  rewrite (status_byte_rebuilt a), (status_byte_rebuilt b). now rewrite H.
Qed.

Lemma sample_of_bytes_inj (a0 a1 a2 a3 b0 b1 b2 b3 : byte) :
  sample_of_bytes a0 a1 a2 a3 = sample_of_bytes b0 b1 b2 b3 ->
  a0 = b0 /\ a1 = b1 /\ a2 = b2 /\ a3 = b3.
Proof.
  unfold sample_of_bytes. intro H.
  pose proof (f_equal StatusPositionSpeed.pos H) as Hp.
  pose proof (f_equal StatusPositionSpeed.status H) as Hs.
  pose proof (f_equal StatusPositionSpeed.speed H) as Hv.
  cbn [StatusPositionSpeed.pos StatusPositionSpeed.status
       StatusPositionSpeed.speed] in Hp, Hs, Hv.
  assert (Hp' : 256 * byte_val a1 + byte_val a0 = 256 * byte_val b1 + byte_val b0)
    by congruence.
  assert (Hs' : status_of_byte a2 = status_of_byte b2) by congruence.
  apply word_inj in Hp' as [-> ->].
  apply status_of_byte_inj in Hs' as ->. apply byte_val_inj in Hv as ->.
  repeat split.
Qed.

Lemma hex_byte_inj (a b : byte) : hex_byte a = hex_byte b -> a = b.
Proof.
  intro H. apply byte_val_inj.
  pose proof (int16_hex_byte a) as Ha. rewrite H, int16_hex_byte in Ha.
  now injection Ha.
Qed.

Lemma hex_inj (xs : bytes) : forall ys, hex xs = hex ys -> xs = ys.
Proof.
  induction xs as [|x xs IH]; intros [|y ys] H; try reflexivity;
    try discriminate H.
  cbn [hex flat_map hex_byte app] in H. fold (hex xs) (hex ys) in H.
  injection H as H1 H2 H3.
  f_equal; [|now apply IH].
  apply hex_byte_inj. unfold hex_byte. now rewrite H1, H2.
Qed.

(** A 16-bit word is its sixteen flags. *)
Lemma flags_of_word_inj (w w' : Z) :
  0 <= w < 65536 -> 0 <= w' < 65536 ->
  flags_of_word w = flags_of_word w' -> w = w'.
Proof.
  intros Hw Hw' H. injection H as H15 H14 H13 H12 H11 H10 H9 H8 H7 H6 H5 H4 H3 H2 H1 H0.
  apply Z.bits_inj'. intros n Hn.
  destruct (Z_lt_dec n 16) as [Hlt|Hge].
  - rewrite <- (Z2Nat.id n) in * by lia.
    remember (Z.to_nat n) as k eqn:Hk. clear Hk.
    do 16 (destruct k as [|k]; [assumption|]).
    lia.
  - assert (Hhigh : forall v, 0 <= v < 65536 -> Z.testbit v n = false).
    { intros v Hv. destruct (Z.eq_dec v 0) as [->|Hnz]; [apply Z.bits_0|].
      apply Z.bits_above_log2; [lia|].
      assert (Z.log2 v < 16) by (apply Z.log2_lt_pow2; lia). lia. }
    now rewrite !Hhigh.
Qed.

Lemma some_inj {A} (x y : A) : Some x = Some y -> x = y.
Proof. intro H. now injection H. Qed.

Lemma word_range (lo hi : byte) : 0 <= 256 * byte_val hi + byte_val lo < 65536.
Proof.
  pose proof (byte_val_range lo). pose proof (byte_val_range hi). lia.
Qed.

(** Takes an equation between two closed forms apart, down to the bytes. *)
Ltac bytes_of_equation E :=
  cbv [report_of_bytes sample_at word_at byte_at nth Nat.add
       slice slice_from firstn skipn Nat.sub
       StatusReport.featureRaportID StatusReport.numberOfBytes
       StatusReport.validFlag StatusReport.ref1 StatusReport.ref2
       StatusReport.ref3 StatusReport.ref4 StatusReport.ref1cnt
       StatusReport.ref2cnt StatusReport.ref3cnt StatusReport.ref4cnt
       StatusReport.ref5 StatusReport.diagnostic StatusReport.undefined1
       StatusReport.handset1 StatusReport.handset2 StatusReport.ref6
       StatusReport.ref7 StatusReport.ref8 StatusReport.undefined2] in E;
  try apply some_inj in E;
  first
    [ apply byte_val_inj in E
    | apply word_inj in E; destruct E
    | apply sample_of_bytes_inj in E; destruct E as (? & ? & ? & ?)
    | apply flags_of_word_inj in E;
      [apply word_inj in E; destruct E | apply word_range | apply word_range]
    | apply hex_inj in E ].

Lemma report_of_bytes_inj (buf buf' : bytes) :
  (57 <= length buf)%nat -> (57 <= length buf')%nat ->
  report_of_bytes buf = report_of_bytes buf' -> buf = buf'.
Proof.
  intros H H' E.
  do 57 (destruct buf as [|? buf]; [cbn [length] in H; lia|]).
  do 57 (destruct buf' as [|? buf']; [cbn [length] in H'; lia|]).
  clear H H'.
  pose proof (f_equal StatusReport.featureRaportID E) as E0.
  pose proof (f_equal StatusReport.numberOfBytes E) as E1.
  pose proof (f_equal StatusReport.validFlag E) as E2.
  pose proof (f_equal StatusReport.ref1 E) as E3.
  pose proof (f_equal StatusReport.ref2 E) as E4.
  pose proof (f_equal StatusReport.ref3 E) as E5.
  pose proof (f_equal StatusReport.ref4 E) as E6.
  pose proof (f_equal StatusReport.ref1cnt E) as E7.
  pose proof (f_equal StatusReport.ref2cnt E) as E8.
  pose proof (f_equal StatusReport.ref3cnt E) as E9.
  pose proof (f_equal StatusReport.ref4cnt E) as E10.
  pose proof (f_equal StatusReport.ref5 E) as E11.
  pose proof (f_equal StatusReport.diagnostic E) as E12.
  pose proof (f_equal StatusReport.undefined1 E) as E13.
  pose proof (f_equal StatusReport.handset1 E) as E14.
  pose proof (f_equal StatusReport.handset2 E) as E15.
  pose proof (f_equal StatusReport.ref6 E) as E16.
  pose proof (f_equal StatusReport.ref7 E) as E17.
  pose proof (f_equal StatusReport.ref8 E) as E18.
  pose proof (f_equal StatusReport.undefined2 E) as E19.
  clear E.
  bytes_of_equation E0. bytes_of_equation E1. bytes_of_equation E2.
  bytes_of_equation E3. bytes_of_equation E4. bytes_of_equation E5.
  bytes_of_equation E6. bytes_of_equation E7. bytes_of_equation E8.
  bytes_of_equation E9. bytes_of_equation E10. bytes_of_equation E11.
  bytes_of_equation E12. bytes_of_equation E13. bytes_of_equation E14.
  bytes_of_equation E15. bytes_of_equation E16. bytes_of_equation E17.
  bytes_of_equation E18. bytes_of_equation E19.
  injection E12 as ? ? ? ? ? ? ? ?. injection E13 as ? ?.
  subst. reflexivity.
Qed.

(** X2: decoding loses nothing.  Two buffers that [StatusReport.from_buf]
    decodes give the same report only if they are the same buffer, byte
    for byte: every byte of a report ends up in some attribute. *)
Theorem X2_from_buf_injective (buf buf' : bytes) (r r' : StatusReport.t) :
  StatusReport.from_buf buf = Ok r ->
  StatusReport.from_buf buf' = Ok r' ->
  (r = r' <-> buf = buf').
Proof.
  intros H H'. split.
  - intros <-.
    pose proof (from_buf_needs_57 _ H) as L.
    pose proof (from_buf_needs_57 _ H') as L'.
    rewrite from_buf_long in H, H' by assumption.
    apply report_of_bytes_inj; congruence.
  - intros <-. congruence.
Qed.

Lemma X2_from_buf_injective_witness :
  report_of_bytes (status_buffer x04 x24 x13 x00 x00)
  <> report_of_bytes (status_buffer x04 x24 x13 x00 x01).
Proof.
  intro E.
  apply (@X2_from_buf_injective
           (status_buffer x04 x24 x13 x00 x00) (status_buffer x04 x24 x13 x00 x01)
           _ _
           (from_buf_report_of_bytes (status_buffer x04 x24 x13 x00 x00) eq_refl)
           (from_buf_report_of_bytes (status_buffer x04 x24 x13 x00 x01) eq_refl))
    in E.
  discriminate E.
Defined.

(** ** What a decoded report satisfies *)

Lemma status_unknown_range (b : byte) : 0 <= Status.unknown (status_of_byte b) < 16.
Proof. cbn. apply Z.mod_pos_bound. lia. Qed.

(** X3: in a report that [StatusReport.from_buf] returns, the two header
    attributes and the speed of each sample are bytes, every position,
    counter and handset word is a 16-bit number, and the residual [unknown]
    of each sample's status is a nibble. *)
Theorem X3_decoded_fields_in_range (buf : bytes) (r : StatusReport.t) :
  StatusReport.from_buf buf = Ok r ->
  let byte_sized v := 0 <= v < 256 in
  let word_sized v := 0 <= v < 65536 in
  let sample_in_range ref :=
    exists p st sp,
      ref = Some (StatusPositionSpeed.mk (Some p) (Some st) sp)
      /\ word_sized p /\ byte_sized sp /\ 0 <= Status.unknown st < 16 in
  byte_sized (StatusReport.featureRaportID r) /\
  byte_sized (StatusReport.numberOfBytes r) /\
  word_sized (StatusReport.ref1cnt r) /\ word_sized (StatusReport.ref2cnt r) /\
  word_sized (StatusReport.ref3cnt r) /\ word_sized (StatusReport.ref4cnt r) /\
  word_sized (StatusReport.handset1 r) /\ word_sized (StatusReport.handset2 r) /\
  sample_in_range (StatusReport.ref1 r) /\ sample_in_range (StatusReport.ref2 r) /\
  sample_in_range (StatusReport.ref3 r) /\ sample_in_range (StatusReport.ref4 r) /\
  sample_in_range (StatusReport.ref5 r) /\ sample_in_range (StatusReport.ref6 r) /\
  sample_in_range (StatusReport.ref7 r) /\ sample_in_range (StatusReport.ref8 r).
Proof.
  intros H. pose proof (from_buf_needs_57 _ H) as L.
  rewrite from_buf_long in H by assumption. injection H as <-.
  cbv zeta.
  assert (Hs : forall i, exists p st sp,
               Some (sample_at buf i)
               = Some (StatusPositionSpeed.mk (Some p) (Some st) sp)
               /\ 0 <= p < 65536 /\ 0 <= sp < 256
               /\ 0 <= Status.unknown st < 16).
  { intro i. do 3 eexists. split; [reflexivity|].
    split; [apply word_range|]. split; [apply byte_val_range|].
    apply status_unknown_range. }
  cbn [report_of_bytes StatusReport.featureRaportID StatusReport.numberOfBytes
       StatusReport.ref1cnt StatusReport.ref2cnt StatusReport.ref3cnt
       StatusReport.ref4cnt StatusReport.handset1 StatusReport.handset2
       StatusReport.ref1 StatusReport.ref2 StatusReport.ref3 StatusReport.ref4
       StatusReport.ref5 StatusReport.ref6 StatusReport.ref7 StatusReport.ref8].
  repeat match goal with
         | |- _ /\ _ => split
         end;
    first [apply byte_val_range | apply word_range | apply Hs].
Qed.

Lemma X3_decoded_fields_in_range_witness :
  0 <= StatusReport.handset2 (report_of_bytes (counting_buffer xff)) < 65536.
Proof.
  apply (@X3_decoded_fields_in_range (counting_buffer xff) _
           (from_buf_report_of_bytes (counting_buffer xff) eq_refl)).
Defined.

(** X4: in every report that [StatusReport.from_buf] returns, the low byte
    of [handset2] is the high byte of [handset1]: both are byte 43 of the
    buffer. *)
Theorem X4_handsets_share_a_byte (buf : bytes) (r : StatusReport.t) :
  StatusReport.from_buf buf = Ok r ->
  StatusReport.handset2 r mod 256 = StatusReport.handset1 r / 256 /\
  StatusReport.handset1 r / 256 = byte_val (byte_at buf 43).
Proof.
  intros H. pose proof (from_buf_needs_57 _ H) as L.
  rewrite from_buf_long in H by assumption. injection H as <-.
  cbn [report_of_bytes StatusReport.handset1 StatusReport.handset2]. unfold word_at.
  pose proof (byte_val_range (byte_at buf 42)).
  pose proof (byte_val_range (byte_at buf 43)).
  assert (E1 : (256 * byte_val (byte_at buf 44) + byte_val (byte_at buf 43)) mod 256
               = byte_val (byte_at buf 43)).
  { rewrite Z.add_comm, Z.mul_comm, Z.mod_add by lia. apply Z.mod_small. lia. }
  assert (E2 : (256 * byte_val (byte_at buf 43) + byte_val (byte_at buf 42)) / 256
               = byte_val (byte_at buf 43)).
  { rewrite Z.add_comm, Z.mul_comm, Z.div_add by lia.
    rewrite Z.div_small by lia. reflexivity. }
  rewrite E1, E2. split; reflexivity.
Qed.

Lemma X4_handsets_share_a_byte_witness :
  StatusReport.handset2 (report_of_bytes (counting_buffer x04)) mod 256 = 0x2b.
Proof.
  destruct (@X4_handsets_share_a_byte (counting_buffer x04) _
              (from_buf_report_of_bytes (counting_buffer x04) eq_refl)) as [E1 E2].
  rewrite E1, E2. reflexivity.
Defined.

(** ** Polls that succeed *)

(** X5: the status fetch and decode of [move] and [get_height] returns
    exactly when the transfer completes and hands over at least 57 bytes
    the first of which is the report id 4; the report is then the decoding
    of those bytes and one transfer was made.  A transfer that hands over
    nothing raises [IndexError], a shorter report with the right id raises
    in the decoder. *)
Theorem X5_poll_returns_iff (tr : Transport) (n : nat) :
  (forall r n',
      fetch_report tr n = Returns r n' <->
      exists t data,
        tr n = Transferred t data /\
        (57 <= length (slice_to t data))%nat /\
        byte_val (byte_at (slice_to t data) 0) = CMD_STATUS_REPORT /\
        StatusReport.from_buf (slice_to t data) = Ok r /\
        n' = S n) /\
  (forall t data,
      tr n = Transferred t data -> slice_to t data = [] ->
      fetch_report tr n = Raises IndexError /\ get_height tr n = Raises IndexError).
Proof.
  split.
  - intros r n'. unfold fetch_report, bindM, lift.
    rewrite get_status_report_unfold.
    destruct (tr n) as [t data|].
    + destruct (slice_to t data) as [|b0 rest] eqn:Hbuf.
      * split; [discriminate|].
        intros (t' & data' & E & L & _). injection E as <- <-.
        rewrite Hbuf in L. cbn in L. lia.
      * cbn [getbyte getitem nth_error bind].
        destruct (byte_val b0 =? CMD_STATUS_REPORT) eqn:E0; cbn [negb].
        -- apply Z.eqb_eq in E0.
           destruct (StatusReport.from_buf (b0 :: rest)) as [r'|e] eqn:Hd.
           ++ split.
              ** intro H. injection H as <- <-. exists t, data.
                 rewrite Hbuf. repeat split; try assumption.
                 exact (from_buf_needs_57 _ Hd).
              ** intros (t' & data' & E & L & _ & Hd' & ->).
                 injection E as <- <-. rewrite Hbuf in Hd'. congruence.
           ++ split; [discriminate|].
              intros (t' & data' & E & L & _ & Hd' & ->).
              injection E as <- <-. rewrite Hbuf in Hd'. congruence.
        -- split; [discriminate|].
           intros (t' & data' & E & _ & H0 & _). injection E as <- <-.
           rewrite Hbuf in H0. cbn in H0. apply Z.eqb_neq in E0. contradiction.
    + split; [discriminate|]. intros (t' & data' & E & _). discriminate E.
  - intros t data Ht Hbuf.
    assert (E : fetch_report tr n = Raises IndexError).
    { unfold fetch_report, bindM.
      now rewrite get_status_report_unfold, Ht, Hbuf. }
    split; [exact E|]. now rewrite get_height_fetch, E.
Qed.

(** ** The move command *)

Lemma Zlist_eqb_eq (xs : list Z) : forall ys, Zlist_eqb xs ys = true -> xs = ys.
Proof.
  induction xs as [|x xs IH]; intros [|y ys] H; try discriminate H;
    [reflexivity|].
  cbn [Zlist_eqb] in H. apply andb_prop in H as [Hx Hr].
  apply Z.eqb_eq in Hx. f_equal; [assumption|now apply IH].
Qed.

Lemma all_heights_build_command :
  all_from (Z.to_nat 65536) 0 builds_command = true.
Proof. vm_compute. reflexivity. Qed.

Lemma move_command_bytes (height : Z) :
  0 <= height < 65536 ->
  exists cmd, move_command height = Ok cmd
              /\ map byte_val cmd = command_bytes height.
Proof.
  intro H.
  pose proof (@all_from_spec builds_command _ _ all_heights_build_command height) as A.
  unfold builds_command in A.
  destruct (move_command height) as [cmd|e].
  - exists cmd. split; [reflexivity|]. apply Zlist_eqb_eq, A. lia.
  - discriminate A. lia.
Qed.

Lemma byte_at_of_map (cmd : bytes) (i : nat) (vs : list Z) :
  map byte_val cmd = vs -> (i < length vs)%nat ->
  byte_val (byte_at cmd i) = nth i vs 0.
Proof.
  intros <- Hi. unfold byte_at. rewrite length_map in Hi.
  rewrite (nth_indep _ 0 (byte_val x00)) by (now rewrite length_map).
  now rewrite map_nth.
Qed.

(** X6: for a 16-bit height [_move] sends, in one transfer, the 64-byte
    command made of the id 5, the low byte and the high byte of the height
    in each of the four slots (bytes 1 to 8), and zeros; it returns whether
    the transfer reported 64 bytes.  Read back with the byte swap of the
    decoder, each slot gives the height. *)
Theorem X6_move_command (tr : Transport) (height : Z) (n : nat) :
  0 <= height < 65536 ->
  exists cmd,
    move_command height = Ok cmd /\
    length cmd = 64%nat /\
    map byte_val cmd
    = 5 :: height mod 256 :: height / 256 :: height mod 256 :: height / 256
        :: height mod 256 :: height / 256 :: height mod 256 :: height / 256
        :: repeat 0 55 /\
    (forall slot, (slot < 4)%nat ->
        int16 (hex [byte_at cmd (2 * slot + 2)] ++ hex [byte_at cmd (2 * slot + 1)])
        = Ok height) /\
    _move tr height n
    = match tr n with
      | Transferred amount _ => Returns (Z.of_nat amount =? 64) (S n)
      | Failed => Raises USBError
      end.
Proof.
  intro H. destruct (move_command_bytes H) as (cmd & Hcmd & Hbytes).
  exists cmd. split; [assumption|]. split; [|split; [exact Hbytes|split]].
  - rewrite <- (length_map byte_val), Hbytes. reflexivity.
  - intros slot Hslot. rewrite int16_hex_swapped. f_equal.
    assert (Hhi : byte_val (byte_at cmd (2 * slot + 2)) = height / 256).
    { rewrite (byte_at_of_map _ Hbytes) by (cbn; lia).
      do 4 (destruct slot as [|slot]; [reflexivity|]). lia. }
    assert (Hlo : byte_val (byte_at cmd (2 * slot + 1)) = height mod 256).
    { rewrite (byte_at_of_map _ Hbytes) by (cbn; lia).
      do 4 (destruct slot as [|slot]; [reflexivity|]). lia. }
    rewrite Hhi, Hlo. pose proof (Z.div_mod height 256). lia.
  - rewrite move_unfold, Hcmd. reflexivity.
Qed.

Lemma X6_move_command_witness :
  exists cmd,
    move_command 4900 = Ok cmd /\
    int16 (hex [byte_at cmd 2] ++ hex [byte_at cmd 1]) = Ok 4900 /\
    _move resting_desk 4900 0%nat = Returns true 1%nat.
Proof.
  destruct (@X6_move_command resting_desk 4900 0%nat) as (cmd & H1 & _ & _ & H4 & H5);
    [lia|].
  exists cmd. split; [exact H1|]. split; [exact (H4 0%nat ltac:(lia))|exact H5].
Defined.

(** ** How long [move] runs *)

Lemma move_body_returns (tr : Transport) (target retry_count prev_height : Z)
      (n n' : nat) (ctl : loop_ctl) :
  move_body tr target retry_count prev_height n = Returns ctl n' ->
  n' = S (S n) /\
  match ctl with
  | Break _ => retry_count = 1
  | Continue retry_count' _ =>
      retry_count' <> 0 /\ (retry_count' = retry_count - 1 \/ retry_count' = max_retry)
  end.
Proof.
  rewrite move_body_fetch, move_unfold.
  destruct (move_command target) as [cmd|e]; [|discriminate].
  destruct (tr n) as [a d|]; [|discriminate].
  unfold fetch_report, bindM. rewrite get_status_report_unfold.
  destruct (tr (S n)) as [t data|]; [|discriminate].
  destruct (getbyte (slice_to t data) 0) as [b0|e]; [|discriminate].
  destruct (negb (b0 =? CMD_STATUS_REPORT)); [discriminate|].
  unfold lift.
  destruct (StatusReport.from_buf (slice_to t data)) as [r|e]; [|discriminate].
  destruct (ref1_pos r) as [pos|e]; [|discriminate].
  intro H. injection H as <- <-. split; [reflexivity|].
  unfold next_ctl, max_retry. destruct (settled r pos prev_height).
  - destruct (retry_count - 1 =? 0) eqn:E.
    + apply Z.eqb_eq in E. lia.
    + apply Z.eqb_neq in E. split; [assumption|now left].
  - cbn. split; [discriminate|now right].
Qed.

Lemma move_loop_returns (tr : Transport) (target : Z) (fuel : nat) :
  forall retry_count prev_height n r n',
    1 <= retry_count <= max_retry ->
    move_loop tr fuel target retry_count prev_height n = Returns r n' ->
    exists iters,
      (Z.to_nat retry_count <= iters <= fuel)%nat /\ n' = (n + 2 * iters)%nat.
Proof.
  induction fuel as [|fuel IH]; intros rc ph n r n' Hrc H; [discriminate|].
  rewrite move_loop_unfold in H.
  destruct (move_body tr target rc ph n) as [[r0|rc' ph'] m|e|] eqn:Hb;
    try discriminate.
  - injection H as <- <-. apply move_body_returns in Hb as [-> ->].
    exists 1%nat. split; [cbn; lia|lia].
  - apply move_body_returns in Hb as [-> [Hnz Hrc']].
    apply IH in H; [|unfold max_retry in *; lia].
    destruct H as (iters & Hi & ->).
    exists (S iters). split; [|lia].
    unfold max_retry in *. lia.
Qed.

(** X7: [move] never returns early.  When it returns, its loop has run at
    least [max_retry] = 3 times, and every iteration made two control
    transfers, a command and a poll. *)
Theorem X7_move_takes_three_polls (tr : Transport) (fuel : nat) (target : Z)
        (n n' : nat) (b : bool) :
  move tr fuel target n = Returns b n' ->
  exists iters, (3 <= iters <= fuel)%nat /\ n' = (n + 2 * iters)%nat.
Proof.
  rewrite move_unfold_loop.
  destruct (move_loop tr fuel target max_retry 0 n) as [r m|e|] eqn:Hl;
    try discriminate.
  destruct (ref1_pos r); [|discriminate].
  intro H. injection H as _ <-.
  apply move_loop_returns in Hl; [|unfold max_retry; lia].
  exact Hl.
Qed.

Lemma X7_move_takes_three_polls_witness :
  exists iters, (3 <= iters <= 4)%nat /\ 8%nat = (0 + 2 * iters)%nat.
Proof.
  apply (@X7_move_takes_three_polls resting_desk 4 4900 0%nat 8%nat true).
  vm_compute. reflexivity.
Defined.

Section PollsAtRest.

Variables (tr : Transport) (n0 : nat) (target p : Z).

Hypothesis sendable : 0 <= target < 65536.
Hypothesis rest_commands : forall k, completes tr (n0 + 2 * k)%nat.
Hypothesis rest_polls :
  forall k, exists r,
    fetch_report tr (n0 + 2 * k + 1)%nat = Returns r (n0 + 2 * k + 2)%nat
    /\ ref1_pos r = Ok p.

Lemma body_at_rest (k : nat) (retry_count prev_height : Z) :
  exists r,
    ref1_pos r = Ok p /\
    move_body tr target retry_count prev_height (n0 + 2 * k)%nat
    = Returns (next_ctl r p retry_count prev_height) (n0 + 2 * (k + 1))%nat.
Proof.
  destruct (rest_polls k) as (r & Hf & Hp). exists r. split; [assumption|].
  replace (n0 + 2 * (k + 1))%nat with (S (S (n0 + 2 * k)%nat)) by lia.
  apply move_body_step; try assumption; [apply rest_commands|].
  replace (S (n0 + 2 * k)%nat) with (n0 + 2 * k + 1)%nat by lia.
  replace (S (n0 + 2 * k + 1)%nat) with (n0 + 2 * k + 2)%nat by lia.
  exact Hf.
Qed.

Lemma settled_same_height (r : StatusReport.t) : settled r p p = true.
Proof.
  unfold settled. rewrite Z.eqb_refl. apply orb_true_r.
Qed.

(** With the previous height [p] and [S j] retries left, polls that keep
    reporting [p] break the loop after [S j] iterations. *)
Lemma rest_countdown (j : nat) :
  forall k, exists r,
    ref1_pos r = Ok p /\
    forall fuel,
      ((S j <= fuel)%nat ->
       move_loop tr fuel target (Z.of_nat (S j)) p (n0 + 2 * k)%nat
       = Returns r (n0 + 2 * (k + S j))%nat) /\
      ((fuel < S j)%nat ->
       move_loop tr fuel target (Z.of_nat (S j)) p (n0 + 2 * k)%nat
       = Unfinished).
Proof.
  induction j as [|j IH]; intro k.
  - destruct (body_at_rest k (Z.of_nat 1) p) as (r & Hp & Hb).
    exists r. split; [assumption|]. intro fuel. split; intro Hfuel.
    + destruct fuel as [|fuel]; [lia|].
      rewrite move_loop_unfold, Hb. unfold next_ctl.
      rewrite settled_same_height. reflexivity.
    + destruct fuel as [|fuel]; [reflexivity|lia].
  - destruct (body_at_rest k (Z.of_nat (S (S j))) p) as (r0 & Hp0 & Hb).
    destruct (IH (k + 1)%nat) as (r & Hp & Hloop).
    exists r. split; [assumption|]. intro fuel.
    assert (Hnext : next_ctl r0 p (Z.of_nat (S (S j))) p
                    = Continue (Z.of_nat (S j)) p).
    { unfold next_ctl. rewrite settled_same_height.
      replace (Z.of_nat (S (S j)) - 1) with (Z.of_nat (S j)) by lia.
      destruct (Z.of_nat (S j) =? 0) eqn:E; [|reflexivity].
      apply Z.eqb_eq in E. lia. }
    split; intro Hfuel.
    + destruct fuel as [|fuel]; [lia|].
      rewrite move_loop_unfold, Hb, Hnext.
      replace (n0 + 2 * (k + S (S j)))%nat with (n0 + 2 * (k + 1 + S j))%nat by lia.
      apply Hloop. lia.
    + destruct fuel as [|fuel]; [reflexivity|].
      rewrite move_loop_unfold, Hb, Hnext. apply Hloop. lia.
Qed.

Lemma move_at_rest :
  exists iters,
    (3 <= iters <= 4)%nat /\
    (forall fuel, (iters <= fuel)%nat ->
                  move tr fuel target n0
                  = Returns (Z.abs (p - target) <=? epsilon) (n0 + 2 * iters)%nat) /\
    (forall fuel, (fuel < iters)%nat -> move tr fuel target n0 = Unfinished).
Proof.
  destruct (body_at_rest 0 max_retry 0) as (r0 & Hp0 & Hb).
  replace (n0 + 2 * 0)%nat with n0 in Hb by lia.
  change (n0 + 2 * (0 + 1))%nat with (n0 + 2 * 1)%nat in Hb.
  unfold next_ctl in Hb. destruct (settled r0 p 0).
  - change (max_retry - 1 =? 0) with false in Hb. cbv iota in Hb.
    destruct (rest_countdown 1 1) as (r & Hp & Hloop).
    exists 3%nat. split; [lia|]. split; intros fuel Hfuel;
      (destruct fuel as [|fuel]; [try lia; reflexivity|]);
      rewrite move_unfold_loop, move_loop_unfold, Hb;
      change (max_retry - 1) with (Z.of_nat 2).
    + rewrite (proj1 (Hloop fuel)) by lia. now rewrite Hp.
    + now rewrite (proj2 (Hloop fuel)) by lia.
  - change (max_retry =? 0) with false in Hb. cbv iota in Hb.
    destruct (rest_countdown 2 1) as (r & Hp & Hloop).
    exists 4%nat. split; [lia|]. split; intros fuel Hfuel;
      (destruct fuel as [|fuel]; [try lia; reflexivity|]);
      rewrite move_unfold_loop, move_loop_unfold, Hb;
      change max_retry with (Z.of_nat 3).
    + rewrite (proj1 (Hloop fuel)) by lia. now rewrite Hp.
    + now rewrite (proj2 (Hloop fuel)) by lia.
Qed.

End PollsAtRest.

(** X8: a desk that reports the same height [p] at every poll, whether it
    has arrived or cannot move, ends [move(target)] after three or four
    iterations; [move] returns whether [p] is within [epsilon] = 13 of the
    target, so [False] for a desk stuck further away. *)
Theorem X8_move_on_a_desk_at_rest (tr : Transport) (n0 : nat) (target p : Z) :
  0 <= target < 65536 ->
  (forall k, completes tr (n0 + 2 * k)%nat) ->
  (forall k, exists r,
      fetch_report tr (n0 + 2 * k + 1)%nat = Returns r (n0 + 2 * k + 2)%nat
      /\ ref1_pos r = Ok p) ->
  exists iters,
    (3 <= iters <= 4)%nat /\
    (forall fuel, (iters <= fuel)%nat ->
                  move tr fuel target n0
                  = Returns (Z.abs (p - target) <=? 13) (n0 + 2 * iters)%nat) /\
    (forall fuel, (fuel < iters)%nat -> move tr fuel target n0 = Unfinished).
Proof.
  intros Ht Hc Hp. exact (@move_at_rest tr n0 target p Ht Hc Hp).
Qed.

Lemma X8_move_on_a_desk_at_rest_witness :
  exists iters,
    (3 <= iters <= 4)%nat /\
    (forall fuel, (iters <= fuel)%nat ->
                  move resting_desk fuel 6000 0%nat
                  = Returns false (0 + 2 * iters)%nat) /\
    (forall fuel, (fuel < iters)%nat -> move resting_desk fuel 6000 0%nat = Unfinished).
Proof.
  apply (@X8_move_on_a_desk_at_rest resting_desk 0%nat 6000 4900).
  - lia.
  - intro k. apply steady_completes.
  - intro k. replace (0 + 2 * k + 2)%nat with (S (0 + 2 * k + 1)) by lia.
    apply resting_desk_polls.
Defined.

(** ** The handshake *)

Lemma set_status_report_unfold (tr : Transport) (n : nat) :
  _set_status_report tr n =
  match tr n with
  | Failed => Raises USBError
  | Transferred amount _ =>
      if Z.of_nat amount =? LEN_STATUS_REPORT then Returns tt (S n)
      else Raises init_failed_step1
  end.
Proof.
  unfold _set_status_report, bindM, lift, _control_write_read, raise, ret.
  change (setitem (repeat x00 (Z.to_nat LEN_STATUS_REPORT)) 0 CMD_MODE_OF_OPERATION)
    with (Ok (x03 :: repeat x00 63)).
  cbv beta iota.
  change (setitem (x03 :: repeat x00 63) 1 DEF_MODE_OF_OPERATION)
    with (Ok (x03 :: x04 :: repeat x00 62)).
  cbv beta iota.
  change (setitem (x03 :: x04 :: repeat x00 62) 2 0)
    with (Ok (x03 :: x04 :: x00 :: repeat x00 61)).
  cbv beta iota.
  change (setitem (x03 :: x04 :: x00 :: repeat x00 61) 3 251)
    with (Ok (x03 :: x04 :: x00 :: xfb :: repeat x00 60)).
  cbv beta iota.
  destruct (tr n) as [amount d|]; [|reflexivity].
  destruct (Z.of_nat amount =? LEN_STATUS_REPORT); reflexivity.
Qed.

Lemma move_end_unfold (tr : Transport) (n : nat) :
  _move_end tr n =
  match tr n with
  | Failed => Raises USBError
  | Transferred amount _ => Returns (Z.of_nat amount =? LEN_STATUS_REPORT) (S n)
  end.
Proof.
  unfold _move_end. rewrite move_unfold.
  destruct (@move_command_ok HEIGHT_MOVE_END) as [cmd ->];
    [unfold HEIGHT_MOVE_END; lia|].
  reflexivity.
Qed.

Lemma init_device_unfold (tr : Transport) (n : nat) (buf : bytes) :
  receives tr n buf -> byte_val (byte_at buf 0) = CMD_STATUS_REPORT ->
  _init_device tr n =
  if (byte_val (byte_at buf 1) =? NRB_STATUS_REPORT) && payload_zero buf
  then match _set_status_report tr (S n) with
       | Returns _ n1 =>
           match _move_end tr n1 with
           | Returns ok n2 => if ok then Returns tt n2 else Raises init_failed_step2
           | Raises e => Raises e
           | Unfinished => Unfinished
           end
       | Raises e => Raises e
       | Unfinished => Unfinished
       end
  else Returns tt (S n).
Proof.
  intros Hr H0. unfold _init_device, bindM.
  rewrite (get_status_report_accepts Hr H0).
  destruct Hr as (_ & _ & _ & _ & Hlen).
  unfold lift. rewrite not_ready_formula by assumption.
  rewrite H0, Z.eqb_refl. cbn [andb].
  destruct ((byte_val (byte_at buf 1) =? NRB_STATUS_REPORT) && payload_zero buf);
    cbn [negb]; [|reflexivity].
  destruct (_set_status_report tr (S n)) as [[] n1|e|]; try reflexivity.
  destruct (_move_end tr n1) as [[|] n2|e|]; reflexivity.
Qed.

(** X9: a device whose first status report is not the blank one (id 4,
    length 56, bytes 2 to 58 zero) is taken as ready: [_init_device] makes
    that one transfer and returns, sending nothing. *)
Theorem X9_init_leaves_a_ready_device_alone (tr : Transport) (n : nat) (buf : bytes) :
  receives tr n buf ->
  byte_val (byte_at buf 0) = 4 ->
  (byte_val (byte_at buf 1) <> 56
   \/ exists i, (2 <= i <= 58)%nat /\ byte_val (byte_at buf i) <> 0) ->
  _init_device tr n = Returns tt (S n).
Proof.
  intros Hr H0 Hready. rewrite (init_device_unfold Hr H0).
  replace ((byte_val (byte_at buf 1) =? NRB_STATUS_REPORT) && payload_zero buf)
    with false; [reflexivity|].
  symmetry. apply andb_false_iff. destruct Hready as [H1|(i & Hi & Hb)].
  - left. now apply Z.eqb_neq.
  - right. apply not_true_is_false. intro E.
    apply Hb. now apply (proj1 (payload_zero_spec buf) E).
Qed.

Lemma X9_init_leaves_a_ready_device_alone_witness :
  _init_device resting_desk 0%nat = Returns tt 1%nat.
Proof.
  apply (@X9_init_leaves_a_ready_device_alone resting_desk 0%nat
           (status_buffer x04 x24 x13 x00 x00)).
  - apply steady_receives. reflexivity.
  - reflexivity.
  - right. exists 4%nat. split; [lia|discriminate].
Defined.

(** X10: on a device whose first status report is the blank one,
    [_init_device] writes the mode of operation and then the end-of-move
    command.  It returns, after three transfers, exactly when both writes
    report 64 bytes; a short first write raises the step 1 exception
    without a third transfer being needed, a short second write raises the
    step 2 exception. *)
Theorem X10_init_handshake (tr : Transport) (n : nat) (buf : bytes)
        (a1 a2 : nat) (d1 d2 : bytes) :
  receives tr n buf ->
  byte_val (byte_at buf 0) = 4 ->
  byte_val (byte_at buf 1) = 56 ->
  (forall i, (2 <= i <= 58)%nat -> byte_val (byte_at buf i) = 0) ->
  tr (S n) = Transferred a1 d1 ->
  (a1 <> 64%nat -> _init_device tr n = Raises init_failed_step1) /\
  (a1 = 64%nat -> tr (S (S n)) = Transferred a2 d2 ->
   (a2 = 64%nat -> _init_device tr n = Returns tt (S (S (S n)))) /\
   (a2 <> 64%nat -> _init_device tr n = Raises init_failed_step2)) /\
  (a1 = 64%nat -> tr (S (S n)) = Failed -> _init_device tr n = Raises USBError).
Proof.
  intros Hr H0 H1 Hz Ht1. rewrite (init_device_unfold Hr H0).
  replace (byte_val (byte_at buf 1) =? NRB_STATUS_REPORT) with true
    by (symmetry; now apply Z.eqb_eq).
  replace (payload_zero buf) with true
    by (symmetry; now apply payload_zero_spec).
  cbn [andb]. rewrite set_status_report_unfold, Ht1. unfold LEN_STATUS_REPORT.
  split; [|split].
  - intro Ha. destruct (Z.of_nat a1 =? 64) eqn:E; [|reflexivity].
    apply Z.eqb_eq in E. lia.
  - intros -> Ht2. change (Z.of_nat 64 =? 64) with true. cbv iota.
    rewrite move_end_unfold, Ht2. unfold LEN_STATUS_REPORT. split.
    + intros ->. reflexivity.
    + intro Ha. destruct (Z.of_nat a2 =? 64) eqn:E; [|reflexivity].
      apply Z.eqb_eq in E. lia.
  - intros -> Ht2. change (Z.of_nat 64 =? 64) with true. cbv iota.
    now rewrite move_end_unfold, Ht2.
Qed.

Lemma X10_init_handshake_witness :
  _init_device (steady not_ready_buffer) 0%nat = Returns tt 3%nat.
Proof.
  destruct (@X10_init_handshake (steady not_ready_buffer) 0%nat not_ready_buffer
              64%nat 64%nat not_ready_buffer not_ready_buffer) as (_ & H & _).
  - apply steady_receives. reflexivity.
  - reflexivity.
  - reflexivity.
  - intros i Hi. unfold byte_at, not_ready_buffer.
    do 59 (destruct i as [|i]; [try reflexivity; lia|]). lia.
  - reflexivity.
  - apply H; reflexivity.
Defined.

(** ** Closing *)

(** X11: closing twice fails, and the main block closes twice when its
    body raises.  While [releaseInterface] succeeds, the first [close()] of
    a constructed controller releases the interface and raises nothing, and
    a second [close()] releases nothing and raises [AttributeError], the
    attribute being gone.  So the main block ends with [AttributeError] in
    place of the exception of class [Exception] that its body raised, the
    interface released once; when the body raises nothing, or an exception
    that [except Exception] does not catch, it closes once, in [finally],
    and nothing or that exception comes out.  When [releaseInterface]
    fails, [close()] raises [USBError] and leaves the attributes in place,
    and [USBError] is what comes out of the main block. *)
Theorem X11_close_twice (release_ok : nat -> bool) (k : nat) :
  (release_ok k = true ->
   close release_ok (constructed k) = (closed (S k), None) /\
   close release_ok (closed (S k)) = (closed (S k), Some AttributeError) /\
   main_guard release_ok None (constructed k) = (closed (S k), None) /\
   (forall e, main_guard release_ok (Some (OfException e)) (constructed k)
              = (closed (S k), Some (OfException AttributeError))) /\
   main_guard release_ok (Some OutsideException) (constructed k)
   = (closed (S k), Some OutsideException)) /\
  (release_ok k = false ->
   close release_ok (constructed k) = (constructed (S k), Some USBError) /\
   main_guard release_ok None (constructed k)
   = (constructed (S k), Some (OfException USBError)) /\
   main_guard release_ok (Some OutsideException) (constructed k)
   = (constructed (S k), Some (OfException USBError)) /\
   (forall e, exists w,
       main_guard release_ok (Some (OfException e)) (constructed k)
       = (w, Some (OfException USBError)))).
Proof.
  split; intro H.
  - unfold main_guard, close, constructed, closed. cbn. rewrite H. cbn.
    repeat split.
  - unfold main_guard, close, constructed, closed. cbn. rewrite H. cbn.
    repeat split.
    intro e. destruct (release_ok (S k)); cbn; eexists; reflexivity.
Qed.

Lemma X11_close_twice_witness :
  main_guard (fun _ => true) (Some (OfException invalid_report)) (constructed 0)
  = (closed 1, Some (OfException AttributeError)) /\
  main_guard (fun _ => false) (Some (OfException invalid_report)) (constructed 0)
  = (constructed 2, Some (OfException USBError)).
Proof.
  split.
  - destruct (X11_close_twice (fun _ => true) 0) as [Hok _].
    destruct (Hok eq_refl) as (_ & _ & _ & H & _). apply H.
  - destruct (X11_close_twice (fun _ => false) 0) as [_ Hfail].
    destruct (Hfail eq_refl) as (_ & _ & _ & H).
    destruct (H invalid_report) as [w Hw]. reflexivity.
Defined.

(** ** Verbosity *)

(** X12: [set_verbose] always finds a level: CRITICAL (50) for no [-v],
    ERROR (40) for one, WARNING (30) for two, INFO (20) for three, DEBUG
    (10) for four and for any count the map does not hold, above four or
    negative.  So error messages show from one [-v] on and the messages of
    level INFO, the height that [status] reports among them, only from
    three on; more [-v] never hides a message. *)
Theorem X12_verbosity (v : Z) :
  exists level,
    Logger.set_verbose v = Some level /\
    ((v = 0 /\ level = 50) \/ (v = 1 /\ level = 40) \/ (v = 2 /\ level = 30)
     \/ (v = 3 /\ level = 20) \/ ((v < 0 \/ 4 <= v) /\ level = 10)) /\
    Logger.CRITICAL = 50 /\ Logger.ERROR = 40 /\ Logger.WARNING = 30 /\
    Logger.INFO = 20 /\ Logger.DEBUG = 10 /\
    (Logger.isEnabledFor level Logger.CRITICAL = true) /\
    (Logger.isEnabledFor level Logger.ERROR = true <-> v <> 0) /\
    (Logger.isEnabledFor level Logger.INFO = true <-> v < 0 \/ 3 <= v) /\
    (forall v' level', 0 <= v <= v' -> Logger.set_verbose v' = Some level' ->
                       level' <= level).
Proof.
  assert (Hother : forall u, u < 0 \/ 4 < u ->
                             Logger.set_verbose u = Some Logger.DEBUG).
  { intros u Hu. unfold Logger.set_verbose, Logger.dict_get.
    cbn [Logger.dict_lookup].
    replace (0 =? u) with false by (symmetry; apply Z.eqb_neq; lia).
    replace (1 =? u) with false by (symmetry; apply Z.eqb_neq; lia).
    replace (2 =? u) with false by (symmetry; apply Z.eqb_neq; lia).
    replace (3 =? u) with false by (symmetry; apply Z.eqb_neq; lia).
    replace (4 =? u) with false by (symmetry; apply Z.eqb_neq; lia).
    reflexivity. }
  assert (Hcases : forall u, (u < 0 \/ 4 < u) \/ u = 0 \/ u = 1 \/ u = 2
                             \/ u = 3 \/ u = 4) by (intro u; lia).
  assert (Hlevel : forall u level,
            Logger.set_verbose u = Some level ->
            (u = 0 /\ level = 50) \/ (u = 1 /\ level = 40) \/ (u = 2 /\ level = 30)
            \/ (u = 3 /\ level = 20) \/ ((u < 0 \/ 4 <= u) /\ level = 10)).
  { intros u level H.
    destruct (Hcases u) as [Hu|[->|[->|[->|[->| ->]]]]].
    - rewrite (Hother u Hu) in H. injection H as <-.
      right. right. right. right. split; [lia|reflexivity].
    - injection H as <-. left. split; reflexivity.
    - injection H as <-. right. left. split; reflexivity.
    - injection H as <-. right. right. left. split; reflexivity.
    - injection H as <-. right. right. right. left. split; reflexivity.
    - injection H as <-. right. right. right. right. split; [lia|reflexivity]. }
  assert (Hsome : exists level, Logger.set_verbose v = Some level).
  { destruct (Hcases v) as [Hu|[->|[->|[->|[->| ->]]]]];
      [rewrite (Hother v Hu)| | | | |]; eexists; reflexivity. }
  destruct Hsome as [level Hv]. exists level. split; [exact Hv|].
  pose proof (Hlevel v level Hv) as Hl.
  split; [exact Hl|].
  do 5 (split; [reflexivity|]).
  unfold Logger.isEnabledFor, Logger.CRITICAL, Logger.ERROR, Logger.INFO.
  rewrite !Z.leb_le.
  split; [lia|]. split; [lia|]. split; [lia|].
  intros v' level' Hvv Hv'. pose proof (Hlevel v' level' Hv'). lia.
Qed.
